(** * HugolandP4: the game state engine of [src/hooks/useGameState.ts]

    The hook [useGameState] owns one [GameState] value and changes it only
    through the updater functions it hands to [setGameState].  Every updater
    is a pure function [prev -> next]; this file embeds each of them as a
    Rocq function of the same name and proves the properties of the engine
    over them.

    Conventions of the embedding.
    - A JS [number] that the code only ever uses as an integer (currencies,
      hit points, levels, zones, counters, prices) is a [Z].  The fractional
      multipliers ([1.5], [1.2], the streak multiplier, the research bonus)
      are exact rationals [Q], and [Math.floor (x * m)] is [Qfloor] of the
      exact product.
    - [Math.random ()] is an input: every updater that draws takes the drawn
      value [u] (a rational in [[0,1)]) as an argument.  [new Date ()] is an
      input [now] in the same way.
    - [null] references are [option]; the union [Weapon | Armor], which the
      code tells apart with ['baseAtk' in item], is the variant [Item].
    - The functions imported from [utils/gameUtils] and [utils/achievements]
      ([calculateResearchBonus], [checkAchievements],
      [initializeAchievements]) are parameters of the development; items
      and enemies made by the generators are arguments of the updaters.
    - A callback that calls [setGameState] and then [updatePlayerStats] or
      [checkAndUnlockAchievements] queues several updaters; its effect on
      the state is their composition in the order they are queued.  The
      updater alone is named [_upd]; the callback keeps the source's name.
    - [visualEffects] is a second, write-only store that no updater of the
      game state reads; [triggerVisualEffect] is left out.
    - The streak multiplier is also given in binary64 ([streakMultiplier64])
      and compared with the rational one on the streaks 0 to 1000. *)

From Stdlib Require Import ZArith QArith Qround Qminmax Lia Lqa.
From Stdlib Require Import Floats Uint63.
From stdpp Require Import base option list gmap strings pretty.

Local Open Scope Z_scope.

(** ** Numbers *)

(** [Math.floor (x * m)] for an integer [x] and a multiplier [m]. *)
Definition floorMul (x : Z) (m : Q) : Z := Qfloor (inject_Z x * m).

(** [Math.floor (Math.random () * n)] for the drawn value [u]. *)
Definition randomInt (u : Q) (n : Z) : Z := Qfloor (u * inject_Z n).

(** [Math.random () < 0.5] *)
Definition randomBelowHalf (u : Q) : bool :=
  match (u ?= 0.5)%Q with Lt => true | _ => false end.


(** ** Data model ([types/game], as the hook uses it) *)

Inductive Rarity := common | rare | epic | legendary | mythical.

Module Weapon.
Record t := mk {
  id : string;
  name : string;
  rarity : Rarity;
  level : Z;
  baseAtk : Z;
  upgradeCost : Z;
  sellPrice : Z }.
End Weapon.

Module Armor.
Record t := mk {
  id : string;
  name : string;
  rarity : Rarity;
  level : Z;
  baseDef : Z;
  upgradeCost : Z;
  sellPrice : Z }.
End Armor.

Inductive Item :=
| ItemWeapon (w : Weapon.t)
| ItemArmor (a : Armor.t).

Module Enemy.
Record t := mk {
  name : string;
  zone : Z;
  hp : Z;
  maxHp : Z;
  atk : Z;
  def : Z }.
End Enemy.

Module PlayerStats.
Record t := mk {
  hp : Z;
  maxHp : Z;
  atk : Z;
  def : Z;
  baseAtk : Z;
  baseDef : Z;
  baseHp : Z }.
End PlayerStats.

Module Inventory.
Record t := mk {
  weapons : list Weapon.t;
  armor : list Armor.t;
  currentWeapon : option Weapon.t;
  currentArmor : option Armor.t }.
End Inventory.

Module Research.
Record t := mk {
  level : Z;
  tier : Z;
  totalSpent : Z }.
End Research.

Module RarityStats.
Record t := mk {
  common : Z;
  rare : Z;
  epic : Z;
  legendary : Z;
  mythical : Z }.
End RarityStats.

Module CollectionBook.
Record t := mk {
  weapons : gmap string bool;
  armor : gmap string bool;
  totalWeaponsFound : Z;
  totalArmorFound : Z;
  rarityStats : RarityStats.t }.
End CollectionBook.

Module KnowledgeStreak.
Record t := mk {
  current : Z;
  best : Z;
  multiplier : Q;
  lastCorrectTime : option Z }.
End KnowledgeStreak.

Inductive Mode := normal | speed | survival.

Module GameMode.
Record t := mk {
  current : Mode;
  speedModeActive : bool;
  survivalLives : Z;
  maxSurvivalLives : Z }.
End GameMode.

Module Accuracy.
Record t := mk {
  correct : Z;
  total : Z }.
End Accuracy.

Module Statistics.
Record t := mk {
  totalQuestionsAnswered : Z;
  correctAnswers : Z;
  totalPlayTime : Z;
  zonesReached : Z;
  itemsCollected : Z;
  coinsEarned : Z;
  gemsEarned : Z;
  chestsOpened : Z;
  accuracyByCategory : gmap string Accuracy.t;
  sessionStartTime : Z }.
End Statistics.

Module Reward.
Record t := mk {
  coins : option Z;
  gems : option Z }.
End Reward.

Module Achievement.
Record t := mk {
  id : string;
  reward : option Reward.t;
  unlocked : bool }.
End Achievement.

Record GameState := mkGameState {
  coins : Z;
  gems : Z;
  zone : Z;
  playerStats : PlayerStats.t;
  inventory : Inventory.t;
  currentEnemy : option Enemy.t;
  inCombat : bool;
  combatLog : list string;
  research : Research.t;
  isPremium : bool;
  achievements : list Achievement.t;
  collectionBook : CollectionBook.t;
  knowledgeStreak : KnowledgeStreak.t;
  gameMode : GameMode.t;
  statistics : Statistics.t }.

Inductive ChestType := chestWeapon | chestArmor.

Module ChestReward.
Record t := mk {
  type : ChestType;
  items : list Item }.
End ChestReward.

#[global] Instance Mode_eq_dec : EqDecision Mode.
Proof. solve_decision. Defined.

#[global] Instance Rarity_eq_dec : EqDecision Rarity.
Proof. solve_decision. Defined.

(** ** Object spreads: [{ ...prev, field: v }] *)

Definition set_coins (v : Z) (s : GameState) : GameState :=
  mkGameState v (gems s) (zone s) (playerStats s) (inventory s) (currentEnemy s)
    (inCombat s) (combatLog s) (research s) (isPremium s) (achievements s)
    (collectionBook s) (knowledgeStreak s) (gameMode s) (statistics s).

Definition set_gems (v : Z) (s : GameState) : GameState :=
  mkGameState (coins s) v (zone s) (playerStats s) (inventory s) (currentEnemy s)
    (inCombat s) (combatLog s) (research s) (isPremium s) (achievements s)
    (collectionBook s) (knowledgeStreak s) (gameMode s) (statistics s).

Definition set_zone (v : Z) (s : GameState) : GameState :=
  mkGameState (coins s) (gems s) v (playerStats s) (inventory s) (currentEnemy s)
    (inCombat s) (combatLog s) (research s) (isPremium s) (achievements s)
    (collectionBook s) (knowledgeStreak s) (gameMode s) (statistics s).

Definition set_playerStats (v : PlayerStats.t) (s : GameState) : GameState :=
  mkGameState (coins s) (gems s) (zone s) v (inventory s) (currentEnemy s)
    (inCombat s) (combatLog s) (research s) (isPremium s) (achievements s)
    (collectionBook s) (knowledgeStreak s) (gameMode s) (statistics s).

Definition set_inventory (v : Inventory.t) (s : GameState) : GameState :=
  mkGameState (coins s) (gems s) (zone s) (playerStats s) v (currentEnemy s)
    (inCombat s) (combatLog s) (research s) (isPremium s) (achievements s)
    (collectionBook s) (knowledgeStreak s) (gameMode s) (statistics s).

Definition set_currentEnemy (v : option Enemy.t) (s : GameState) : GameState :=
  mkGameState (coins s) (gems s) (zone s) (playerStats s) (inventory s) v
    (inCombat s) (combatLog s) (research s) (isPremium s) (achievements s)
    (collectionBook s) (knowledgeStreak s) (gameMode s) (statistics s).

Definition set_inCombat (v : bool) (s : GameState) : GameState :=
  mkGameState (coins s) (gems s) (zone s) (playerStats s) (inventory s) (currentEnemy s)
    v (combatLog s) (research s) (isPremium s) (achievements s)
    (collectionBook s) (knowledgeStreak s) (gameMode s) (statistics s).

Definition set_combatLog (v : list string) (s : GameState) : GameState :=
  mkGameState (coins s) (gems s) (zone s) (playerStats s) (inventory s) (currentEnemy s)
    (inCombat s) v (research s) (isPremium s) (achievements s)
    (collectionBook s) (knowledgeStreak s) (gameMode s) (statistics s).

Definition set_research (v : Research.t) (s : GameState) : GameState :=
  mkGameState (coins s) (gems s) (zone s) (playerStats s) (inventory s) (currentEnemy s)
    (inCombat s) (combatLog s) v (isPremium s) (achievements s)
    (collectionBook s) (knowledgeStreak s) (gameMode s) (statistics s).

Definition set_isPremium (v : bool) (s : GameState) : GameState :=
  mkGameState (coins s) (gems s) (zone s) (playerStats s) (inventory s) (currentEnemy s)
    (inCombat s) (combatLog s) (research s) v (achievements s)
    (collectionBook s) (knowledgeStreak s) (gameMode s) (statistics s).

Definition set_achievements (v : list Achievement.t) (s : GameState) : GameState :=
  mkGameState (coins s) (gems s) (zone s) (playerStats s) (inventory s) (currentEnemy s)
    (inCombat s) (combatLog s) (research s) (isPremium s) v
    (collectionBook s) (knowledgeStreak s) (gameMode s) (statistics s).

Definition set_collectionBook (v : CollectionBook.t) (s : GameState) : GameState :=
  mkGameState (coins s) (gems s) (zone s) (playerStats s) (inventory s) (currentEnemy s)
    (inCombat s) (combatLog s) (research s) (isPremium s) (achievements s)
    v (knowledgeStreak s) (gameMode s) (statistics s).

Definition set_knowledgeStreak (v : KnowledgeStreak.t) (s : GameState) : GameState :=
  mkGameState (coins s) (gems s) (zone s) (playerStats s) (inventory s) (currentEnemy s)
    (inCombat s) (combatLog s) (research s) (isPremium s) (achievements s)
    (collectionBook s) v (gameMode s) (statistics s).

Definition set_gameMode (v : GameMode.t) (s : GameState) : GameState :=
  mkGameState (coins s) (gems s) (zone s) (playerStats s) (inventory s) (currentEnemy s)
    (inCombat s) (combatLog s) (research s) (isPremium s) (achievements s)
    (collectionBook s) (knowledgeStreak s) v (statistics s).

Definition set_statistics (v : Statistics.t) (s : GameState) : GameState :=
  mkGameState (coins s) (gems s) (zone s) (playerStats s) (inventory s) (currentEnemy s)
    (inCombat s) (combatLog s) (research s) (isPremium s) (achievements s)
    (collectionBook s) (knowledgeStreak s) (gameMode s) v.

(** [{ ...prev.playerStats, hp: v }] *)
Definition set_hp (v : Z) (p : PlayerStats.t) : PlayerStats.t :=
  PlayerStats.mk v (PlayerStats.maxHp p) (PlayerStats.atk p) (PlayerStats.def p)
    (PlayerStats.baseAtk p) (PlayerStats.baseDef p) (PlayerStats.baseHp p).

(** [{ ...prev.currentEnemy, hp: v }] *)
Definition set_enemy_hp (v : Z) (e : Enemy.t) : Enemy.t :=
  Enemy.mk (Enemy.name e) (Enemy.zone e) v (Enemy.maxHp e) (Enemy.atk e) (Enemy.def e).

(** [{ ...prev.gameMode, survivalLives: v }] *)
Definition set_survivalLives (v : Z) (g : GameMode.t) : GameMode.t :=
  GameMode.mk (GameMode.current g) (GameMode.speedModeActive g) v
    (GameMode.maxSurvivalLives g).

(** ** Initial values *)

Definition initialPlayerStats : PlayerStats.t :=
  {| PlayerStats.hp := 200; PlayerStats.maxHp := 200;
     PlayerStats.atk := 50; PlayerStats.def := 0;
     PlayerStats.baseAtk := 50; PlayerStats.baseDef := 0;
     PlayerStats.baseHp := 200 |}.

Definition initialInventory : Inventory.t :=
  {| Inventory.weapons := []; Inventory.armor := [];
     Inventory.currentWeapon := None; Inventory.currentArmor := None |}.

Definition initialResearch : Research.t :=
  {| Research.level := 0; Research.tier := 0; Research.totalSpent := 0 |}.

Definition initialCollectionBook : CollectionBook.t :=
  {| CollectionBook.weapons := ∅; CollectionBook.armor := ∅;
     CollectionBook.totalWeaponsFound := 0; CollectionBook.totalArmorFound := 0;
     CollectionBook.rarityStats := RarityStats.mk 0 0 0 0 0 |}.

Definition initialKnowledgeStreak : KnowledgeStreak.t :=
  {| KnowledgeStreak.current := 0; KnowledgeStreak.best := 0;
     KnowledgeStreak.multiplier := 1; KnowledgeStreak.lastCorrectTime := None |}.

Definition initialGameMode : GameMode.t :=
  {| GameMode.current := normal; GameMode.speedModeActive := false;
     GameMode.survivalLives := 3; GameMode.maxSurvivalLives := 3 |}.

(** [sessionStartTime: new Date ()] is the time [now] at which the value is
    built. *)
Definition initialStatistics (now : Z) : Statistics.t :=
  {| Statistics.totalQuestionsAnswered := 0; Statistics.correctAnswers := 0;
     Statistics.totalPlayTime := 0; Statistics.zonesReached := 1;
     Statistics.itemsCollected := 0; Statistics.coinsEarned := 0;
     Statistics.gemsEarned := 0; Statistics.chestsOpened := 0;
     Statistics.accuracyByCategory := ∅; Statistics.sessionStartTime := now |}.

(** ** Updaters that do not call the imported utilities *)

(** [prev.collectionBook[collectionKey][item.name]] as a condition: an
    absent key is [undefined], and the code only ever stores [true]. *)
Definition truthy (o : option bool) : bool :=
  match o with Some true => true | _ => false end.

(** [{ ...rarityStats, [rarity]: rarityStats[rarity] + 1 }] *)
Definition bumpRarity (r : Rarity) (rs : RarityStats.t) : RarityStats.t :=
  match r with
  | common => RarityStats.mk (RarityStats.common rs + 1) (RarityStats.rare rs)
      (RarityStats.epic rs) (RarityStats.legendary rs) (RarityStats.mythical rs)
  | rare => RarityStats.mk (RarityStats.common rs) (RarityStats.rare rs + 1)
      (RarityStats.epic rs) (RarityStats.legendary rs) (RarityStats.mythical rs)
  | epic => RarityStats.mk (RarityStats.common rs) (RarityStats.rare rs)
      (RarityStats.epic rs + 1) (RarityStats.legendary rs) (RarityStats.mythical rs)
  | legendary => RarityStats.mk (RarityStats.common rs) (RarityStats.rare rs)
      (RarityStats.epic rs) (RarityStats.legendary rs + 1) (RarityStats.mythical rs)
  | mythical => RarityStats.mk (RarityStats.common rs) (RarityStats.rare rs)
      (RarityStats.epic rs) (RarityStats.legendary rs) (RarityStats.mythical rs + 1)
  end.

(** [{ ...prev.statistics, itemsCollected: prev.statistics.itemsCollected + 1 }] *)
Definition bumpItemsCollected (st : Statistics.t) : Statistics.t :=
  Statistics.mk (Statistics.totalQuestionsAnswered st) (Statistics.correctAnswers st)
    (Statistics.totalPlayTime st) (Statistics.zonesReached st)
    (Statistics.itemsCollected st + 1) (Statistics.coinsEarned st)
    (Statistics.gemsEarned st) (Statistics.chestsOpened st)
    (Statistics.accuracyByCategory st) (Statistics.sessionStartTime st).

(** [updateCollectionBook], lines 199-229.  [isWeapon] is the variant of
    [item]; the two branches are the two values of [collectionKey] and
    [countKey]. *)
Definition updateCollectionBook (item : Item) (prev : GameState) : GameState :=
  let book := collectionBook prev in
  match item with
  | ItemWeapon w =>
      if truthy (CollectionBook.weapons book !! Weapon.name w) then prev
      else
        set_statistics (bumpItemsCollected (statistics prev))
          (set_collectionBook
             {| CollectionBook.weapons := <[Weapon.name w := true]> (CollectionBook.weapons book);
                CollectionBook.armor := CollectionBook.armor book;
                CollectionBook.totalWeaponsFound := CollectionBook.totalWeaponsFound book + 1;
                CollectionBook.totalArmorFound := CollectionBook.totalArmorFound book;
                CollectionBook.rarityStats :=
                  bumpRarity (Weapon.rarity w) (CollectionBook.rarityStats book) |}
             prev)
  | ItemArmor a =>
      if truthy (CollectionBook.armor book !! Armor.name a) then prev
      else
        set_statistics (bumpItemsCollected (statistics prev))
          (set_collectionBook
             {| CollectionBook.weapons := CollectionBook.weapons book;
                CollectionBook.armor := <[Armor.name a := true]> (CollectionBook.armor book);
                CollectionBook.totalWeaponsFound := CollectionBook.totalWeaponsFound book;
                CollectionBook.totalArmorFound := CollectionBook.totalArmorFound book + 1;
                CollectionBook.rarityStats :=
                  bumpRarity (Armor.rarity a) (CollectionBook.rarityStats book) |}
             prev)
  end.

(** [Math.min (1 + Math.floor (newCurrent / 5) * 0.1, 2)], line 235. *)
Definition streakMultiplier (newCurrent : Z) : Q :=
  Qmin (1 + inject_Z (Qfloor (inject_Z newCurrent / 5)) * 0.1) 2.

(** The same expression in the arithmetic the program runs on, IEEE 754
    binary64, for a streak that fits a 63-bit integer.  [0x1.999999999999ap-4]
    is the double that the literal [0.1] denotes. *)
Definition streakMultiplier64 (newCurrent : Z) : float :=
  let k := PrimFloat.of_uint63 (Uint63.of_Z (newCurrent / 5)) in
  let m := (1 + k * 0x1.999999999999ap-4)%float in
  if PrimFloat.ltb m 2 then m else 2%float.

(** [updateKnowledgeStreak], lines 231-254. *)
Definition updateKnowledgeStreak (correct : bool) (now : Z) (prev : GameState) : GameState :=
  let ks := knowledgeStreak prev in
  let newCurrent := if correct then KnowledgeStreak.current ks + 1 else 0 in
  let newBest := Z.max (KnowledgeStreak.best ks) newCurrent in
  let newMultiplier := streakMultiplier newCurrent in
  set_knowledgeStreak
    {| KnowledgeStreak.current := newCurrent;
       KnowledgeStreak.best := newBest;
       KnowledgeStreak.multiplier := newMultiplier;
       KnowledgeStreak.lastCorrectTime :=
         if correct then Some now else KnowledgeStreak.lastCorrectTime ks |}
    prev.

(** [updateStatistics], lines 256-272.  [x?.correct || 0] is the stored
    count, or [0] for a category not seen yet. *)
Definition updateStatistics (category : string) (correct : bool) (prev : GameState) : GameState :=
  let st := statistics prev in
  let old := Statistics.accuracyByCategory st !! category in
  let entry :=
    {| Accuracy.correct := default 0 (Accuracy.correct <$> old) + (if correct then 1 else 0);
       Accuracy.total := default 0 (Accuracy.total <$> old) + 1 |} in
  set_statistics
    (Statistics.mk (Statistics.totalQuestionsAnswered st + 1)
       (Statistics.correctAnswers st + (if correct then 1 else 0))
       (Statistics.totalPlayTime st) (Statistics.zonesReached st)
       (Statistics.itemsCollected st) (Statistics.coinsEarned st)
       (Statistics.gemsEarned st) (Statistics.chestsOpened st)
       (<[category := entry]> (Statistics.accuracyByCategory st))
       (Statistics.sessionStartTime st))
    prev.

(** The play-time timer, lines 102-114: one tick per second. *)
Definition tickPlayTime (prev : GameState) : GameState :=
  let st := statistics prev in
  set_statistics
    (Statistics.mk (Statistics.totalQuestionsAnswered st) (Statistics.correctAnswers st)
       (Statistics.totalPlayTime st + 1) (Statistics.zonesReached st)
       (Statistics.itemsCollected st) (Statistics.coinsEarned st)
       (Statistics.gemsEarned st) (Statistics.chestsOpened st)
       (Statistics.accuracyByCategory st) (Statistics.sessionStartTime st))
    prev.

(** [setGameMode], lines 347-357. *)
Definition setGameMode (mode : Mode) (prev : GameState) : GameState :=
  let gm := gameMode prev in
  set_gameMode
    {| GameMode.current := mode;
       GameMode.speedModeActive := bool_decide (mode = speed);
       GameMode.survivalLives :=
         if bool_decide (mode = survival) then GameMode.maxSurvivalLives gm
         else GameMode.survivalLives gm;
       GameMode.maxSurvivalLives := GameMode.maxSurvivalLives gm |}
    prev.

(** ** Equipment *)

(** [prev.inventory.currentWeapon?.id === weaponId] *)
Definition currentWeaponIs (weaponId : string) (inv : Inventory.t) : bool :=
  match Inventory.currentWeapon inv with
  | Some w => bool_decide (Weapon.id w = weaponId)
  | None => false
  end.

Definition currentArmorIs (armorId : string) (inv : Inventory.t) : bool :=
  match Inventory.currentArmor inv with
  | Some a => bool_decide (Armor.id a = armorId)
  | None => false
  end.

(** [weapons.find (w => w.id === weaponId)] *)
Definition findWeapon (weaponId : string) (l : list Weapon.t) : option Weapon.t :=
  List.find (fun w => bool_decide (Weapon.id w = weaponId)) l.

Definition findArmor (armorId : string) (l : list Armor.t) : option Armor.t :=
  List.find (fun a => bool_decide (Armor.id a = armorId)) l.

(** [{ ...w, level: w.level + 1, upgradeCost: Math.floor (w.upgradeCost * 1.5),
       sellPrice: Math.floor (w.sellPrice * 1.2) }] *)
Definition upgradedWeapon (w : Weapon.t) : Weapon.t :=
  {| Weapon.id := Weapon.id w; Weapon.name := Weapon.name w;
     Weapon.rarity := Weapon.rarity w;
     Weapon.level := Weapon.level w + 1;
     Weapon.baseAtk := Weapon.baseAtk w;
     Weapon.upgradeCost := floorMul (Weapon.upgradeCost w) 1.5;
     Weapon.sellPrice := floorMul (Weapon.sellPrice w) 1.2 |}.

Definition upgradedArmor (a : Armor.t) : Armor.t :=
  {| Armor.id := Armor.id a; Armor.name := Armor.name a;
     Armor.rarity := Armor.rarity a;
     Armor.level := Armor.level a + 1;
     Armor.baseDef := Armor.baseDef a;
     Armor.upgradeCost := floorMul (Armor.upgradeCost a) 1.5;
     Armor.sellPrice := floorMul (Armor.sellPrice a) 1.2 |}.

(** The updater of [equipWeapon], lines 360-366. *)
Definition equipWeapon_upd (weapon : Weapon.t) (prev : GameState) : GameState :=
  let inv := inventory prev in
  set_inventory
    {| Inventory.weapons := Inventory.weapons inv;
       Inventory.armor := Inventory.armor inv;
       Inventory.currentWeapon := Some weapon;
       Inventory.currentArmor := Inventory.currentArmor inv |}
    prev.

(** The updater of [equipArmor], lines 371-377. *)
Definition equipArmor_upd (armor : Armor.t) (prev : GameState) : GameState :=
  let inv := inventory prev in
  set_inventory
    {| Inventory.weapons := Inventory.weapons inv;
       Inventory.armor := Inventory.armor inv;
       Inventory.currentWeapon := Inventory.currentWeapon inv;
       Inventory.currentArmor := Some armor |}
    prev.

(** The updater of [upgradeWeapon], lines 382-407. *)
Definition upgradeWeapon_upd (weaponId : string) (prev : GameState) : GameState :=
  let inv := inventory prev in
  match findWeapon weaponId (Inventory.weapons inv) with
  | None => prev
  | Some weapon =>
      if gems prev <? Weapon.upgradeCost weapon then prev
      else
        let updatedWeapons :=
          map (fun w => if bool_decide (Weapon.id w = weaponId) then upgradedWeapon w else w)
            (Inventory.weapons inv) in
        let updatedCurrentWeapon :=
          if currentWeaponIs weaponId inv then findWeapon weaponId updatedWeapons
          else Inventory.currentWeapon inv in
        set_inventory
          {| Inventory.weapons := updatedWeapons;
             Inventory.armor := Inventory.armor inv;
             Inventory.currentWeapon := updatedCurrentWeapon;
             Inventory.currentArmor := Inventory.currentArmor inv |}
          (set_gems (gems prev - Weapon.upgradeCost weapon) prev)
  end.

(** The updater of [upgradeArmor], lines 412-437. *)
Definition upgradeArmor_upd (armorId : string) (prev : GameState) : GameState :=
  let inv := inventory prev in
  match findArmor armorId (Inventory.armor inv) with
  | None => prev
  | Some armor =>
      if gems prev <? Armor.upgradeCost armor then prev
      else
        let updatedArmor :=
          map (fun a => if bool_decide (Armor.id a = armorId) then upgradedArmor a else a)
            (Inventory.armor inv) in
        let updatedCurrentArmor :=
          if currentArmorIs armorId inv then findArmor armorId updatedArmor
          else Inventory.currentArmor inv in
        set_inventory
          {| Inventory.weapons := Inventory.weapons inv;
             Inventory.armor := updatedArmor;
             Inventory.currentWeapon := Inventory.currentWeapon inv;
             Inventory.currentArmor := updatedCurrentArmor |}
          (set_gems (gems prev - Armor.upgradeCost armor) prev)
  end.

(** [sellWeapon], lines 441-455. *)
Definition sellWeapon (weaponId : string) (prev : GameState) : GameState :=
  let inv := inventory prev in
  match findWeapon weaponId (Inventory.weapons inv) with
  | None => prev
  | Some weapon =>
      if currentWeaponIs weaponId inv then prev
      else
        set_inventory
          {| Inventory.weapons :=
               List.filter (fun w => negb (bool_decide (Weapon.id w = weaponId)))
                 (Inventory.weapons inv);
             Inventory.armor := Inventory.armor inv;
             Inventory.currentWeapon := Inventory.currentWeapon inv;
             Inventory.currentArmor := Inventory.currentArmor inv |}
          (set_coins (coins prev + Weapon.sellPrice weapon) prev)
  end.

(** [sellArmor], lines 457-471. *)
Definition sellArmor (armorId : string) (prev : GameState) : GameState :=
  let inv := inventory prev in
  match findArmor armorId (Inventory.armor inv) with
  | None => prev
  | Some armor =>
      if currentArmorIs armorId inv then prev
      else
        set_inventory
          {| Inventory.weapons := Inventory.weapons inv;
             Inventory.armor :=
               List.filter (fun a => negb (bool_decide (Armor.id a = armorId)))
                 (Inventory.armor inv);
             Inventory.currentWeapon := Inventory.currentWeapon inv;
             Inventory.currentArmor := Inventory.currentArmor inv |}
          (set_coins (coins prev + Armor.sellPrice armor) prev)
  end.

(** ** Combat *)

(** [startCombat], lines 547-559.  [enemy] is [generateEnemy (gameState.zone)]. *)
Definition startCombat (enemy : Enemy.t) (prev : GameState) : GameState :=
  let ps := playerStats prev in
  set_combatLog
    ["You encounter a " +:+ Enemy.name enemy +:+ " in Zone " +:+ pretty (Enemy.zone enemy) +:+ "!"]
    (set_playerStats
       (set_hp (if bool_decide (GameMode.current (gameMode prev) = survival)
                then PlayerStats.hp ps else PlayerStats.maxHp ps) ps)
       (set_inCombat true (set_currentEnemy (Some enemy) prev))).

(** The local variables of [attack] after the hit/miss block, lines 571-610. *)
Record Outcome := mkOutcome {
  newCombatLog : list string;
  newPlayerHp : Z;
  newEnemyHp : Z;
  combatEnded : bool;
  playerWon : bool }.

(** Lines 571-610 of [attack]: damage, the log lines, and who fell. *)
Definition resolveAnswer (hit : bool) (enemy : Enemy.t) (prev : GameState) : Outcome :=
  let ps := playerStats prev in
  if hit then
    let damage := Z.max 1 (PlayerStats.atk ps - Enemy.def enemy) in
    let newEnemyHp := Z.max 0 (Enemy.hp enemy - damage) in
    let log := combatLog prev ++
      ["You deal " +:+ pretty damage +:+ " damage to the " +:+ Enemy.name enemy +:+ "!"] in
    if newEnemyHp <=? 0 then
      mkOutcome (log ++ ["You defeated the " +:+ Enemy.name enemy +:+ "!"])
        (PlayerStats.hp ps) newEnemyHp true true
    else
      mkOutcome log (PlayerStats.hp ps) newEnemyHp false false
  else
    let damage := Z.max 1 (Enemy.atk enemy - PlayerStats.def ps) in
    let newPlayerHp := Z.max 0 (PlayerStats.hp ps - damage) in
    let log := combatLog prev ++
      ["You missed! The " +:+ Enemy.name enemy +:+ " deals " +:+ pretty damage
         +:+ " damage to you!"] in
    if newPlayerHp <=? 0 then
      let log1 := log ++ ["You were defeated by the " +:+ Enemy.name enemy +:+ "..."] in
      let log2 :=
        if bool_decide (GameMode.current (gameMode prev) = survival) then
          let newLives := GameMode.survivalLives (gameMode prev) - 1 in
          if newLives <=? 0 then log1 ++ ["Game Over! No lives remaining."] else log1
        else log1 in
      mkOutcome log2 newPlayerHp (Enemy.hp enemy) true false
    else
      mkOutcome log newPlayerHp (Enemy.hp enemy) false false.

(** The mode multipliers of the win branch, lines 615-624. *)
Definition coinModeMultiplier (m : Mode) : Q :=
  match m with normal => 1 | speed => 1.5 | survival => 2 end.

Definition gemModeMultiplier (m : Mode) : Q :=
  match m with normal => 1 | speed => 1.25 | survival => 2 end.

(** The win branch, lines 613-656.  [uCoins] and [uGems] are the two values
    drawn by [Math.random]. *)
Definition winCombat (uCoins uGems : Q) (log : list string) (prev : GameState) : GameState :=
  let mode := GameMode.current (gameMode prev) in
  let coinMultiplier :=
    (coinModeMultiplier mode * KnowledgeStreak.multiplier (knowledgeStreak prev))%Q in
  let gemMultiplier :=
    (gemModeMultiplier mode * KnowledgeStreak.multiplier (knowledgeStreak prev))%Q in
  let baseCoins := zone prev * 8 + randomInt uCoins 15 in
  let baseGems := randomInt uGems 3 + 1 in
  let coinsEarned := floorMul baseCoins coinMultiplier in
  let gemsEarned := floorMul baseGems gemMultiplier in
  let log' := log ++
    ["You earned " +:+ pretty coinsEarned +:+ " coins and " +:+ pretty gemsEarned +:+ " gems!"] in
  let newZone := zone prev + 1 in
  let newIsPremium := 50 <=? newZone in
  let st := statistics prev in
  set_statistics
    (Statistics.mk (Statistics.totalQuestionsAnswered st) (Statistics.correctAnswers st)
       (Statistics.totalPlayTime st)
       (Z.max (Statistics.zonesReached st) newZone)
       (Statistics.itemsCollected st)
       (Statistics.coinsEarned st + coinsEarned)
       (Statistics.gemsEarned st + gemsEarned)
       (Statistics.chestsOpened st)
       (Statistics.accuracyByCategory st) (Statistics.sessionStartTime st))
    (set_combatLog log'
       (set_inCombat false
          (set_currentEnemy None
             (set_isPremium newIsPremium
                (set_zone newZone
                   (set_gems (gems prev + gemsEarned)
                      (set_coins (coins prev + coinsEarned) prev))))))).

(** The defeat branch, lines 657-695. *)
Definition loseCombat (log : list string) (newPlayerHp : Z) (prev : GameState) : GameState :=
  let cleared (newGameMode : GameMode.t) :=
    set_gameMode newGameMode
      (set_playerStats (set_hp newPlayerHp (playerStats prev))
         (set_combatLog log (set_inCombat false (set_currentEnemy None prev)))) in
  if bool_decide (GameMode.current (gameMode prev) = survival) then
    let newGameMode :=
      set_survivalLives (GameMode.survivalLives (gameMode prev) - 1) (gameMode prev) in
    if GameMode.survivalLives newGameMode <=? 0 then
      let ks := knowledgeStreak prev in
      set_knowledgeStreak
        (KnowledgeStreak.mk 0 (KnowledgeStreak.best ks) (KnowledgeStreak.multiplier ks)
           (KnowledgeStreak.lastCorrectTime ks))
        (set_gameMode
           (GameMode.mk normal (GameMode.speedModeActive initialGameMode)
              (GameMode.survivalLives initialGameMode)
              (GameMode.maxSurvivalLives initialGameMode))
           (set_playerStats (set_hp 0 (playerStats prev))
              (set_combatLog log
                 (set_inCombat false (set_currentEnemy None (set_zone 1 prev))))))
    else cleared newGameMode
  else cleared (gameMode prev).

(** The updater of [attack], lines 562-704. *)
Definition attack_upd (hit : bool) (uCoins uGems : Q) (prev : GameState) : GameState :=
  match currentEnemy prev with
  | None => prev
  | Some enemy =>
      if negb (inCombat prev) then prev
      else
        let o := resolveAnswer hit enemy prev in
        if combatEnded o then
          if playerWon o then winCombat uCoins uGems (newCombatLog o) prev
          else loseCombat (newCombatLog o) (newPlayerHp o) prev
        else
          set_combatLog (newCombatLog o)
            (set_playerStats (set_hp (newPlayerHp o) (playerStats prev))
               (set_currentEnemy (Some (set_enemy_hp (newEnemyHp o) enemy)) prev))
  end.

(** [if (category) updateStatistics (category, hit)], lines 566-568: an
    absent category and an empty one are both falsy. *)
Definition recordCategory (category : option string) (hit : bool) (s : GameState) : GameState :=
  match category with
  | Some (String _ _ as c) => updateStatistics c hit s
  | Some EmptyString | None => s
  end.

(** [attack], lines 561-708.  Past the guard the updater calls
    [updateStatistics] (when a category is given) and
    [updateKnowledgeStreak], which queue their own updaters behind it.  The
    achievement check of line 707 runs from a timer and is a transition of
    its own. *)
Definition attack (hit : bool) (category : option string) (uCoins uGems : Q) (now : Z)
    (prev : GameState) : GameState :=
  match currentEnemy prev with
  | None => prev
  | Some _ =>
      if negb (inCombat prev) then prev
      else
        updateKnowledgeStreak hit now
          (recordCategory category hit (attack_upd hit uCoins uGems prev))
  end.

(** ** Persistence *)

(** [stateToSave], lines 157-162. *)
Definition saveGameState (gameState : GameState) : GameState :=
  set_combatLog [] (set_inCombat false (set_currentEnemy None gameState)).

(** [loadGameState], lines 123-140, for a snapshot [parsedState] that has
    every field.  [now] is the new [sessionStartTime]. *)
Definition loadGameState (now : Z) (parsedState : GameState) : GameState :=
  let st := statistics parsedState in
  set_isPremium (isPremium parsedState || (50 <=? zone parsedState))
    (set_statistics
       (Statistics.mk (Statistics.totalQuestionsAnswered st) (Statistics.correctAnswers st)
          (Statistics.totalPlayTime st) (Statistics.zonesReached st)
          (Statistics.itemsCollected st) (Statistics.coinsEarned st)
          (Statistics.gemsEarned st) (Statistics.chestsOpened st)
          (Statistics.accuracyByCategory st) now)
       (set_combatLog [] (set_inCombat false (set_currentEnemy None parsedState)))).

(** ** Economy: the updaters of research and chests *)

(** The updater of [upgradeResearch], lines 475-495. *)
Definition upgradeResearch_upd (prev : GameState) : GameState :=
  let researchCost := 150 in
  if coins prev <? researchCost then prev
  else
    let newLevel := Research.level (research prev) + 1 in
    let newTier := Qfloor (inject_Z newLevel / 10) in
    set_research
      {| Research.level := newLevel;
         Research.tier := newTier;
         Research.totalSpent := Research.totalSpent (research prev) + researchCost |}
      (set_coins (coins prev - researchCost) prev).

(** What one call of [openChest] draws: the three values of
    [Math.random] outside the loop, and for the [i]-th turn of the loop
    its value of [Math.random] and the item each generator would make. *)
Record ChestDraws := mkChestDraws {
  uNumItems : Q;
  uBonusGems : Q;
  uType : Q;
  uIsWeapon : nat -> Q;
  generateWeapon : bool -> nat -> Weapon.t;
  generateArmor : bool -> nat -> Armor.t }.

(** The loop body of lines 510-511. *)
Definition drawItem (d : ChestDraws) (isMythicalChest : bool) (i : nat) : Item :=
  if randomBelowHalf (uIsWeapon d i) then ItemWeapon (generateWeapon d isMythicalChest i)
  else ItemArmor (generateArmor d isMythicalChest i).

(** [items.filter (item => 'baseAtk' in item)] and the same for armor. *)
Definition weaponsOf (items : list Item) : list Weapon.t :=
  omap (fun i => match i with ItemWeapon w => Some w | ItemArmor _ => None end) items.

Definition armorOf (items : list Item) : list Armor.t :=
  omap (fun i => match i with ItemArmor a => Some a | ItemWeapon _ => None end) items.

(** The updater of [openChest], lines 525-539. *)
Definition openChest_upd (chestCost finalBonusGems : Z) (items : list Item)
    (prev : GameState) : GameState :=
  let inv := inventory prev in
  let st := statistics prev in
  set_statistics
    (Statistics.mk (Statistics.totalQuestionsAnswered st) (Statistics.correctAnswers st)
       (Statistics.totalPlayTime st) (Statistics.zonesReached st)
       (Statistics.itemsCollected st) (Statistics.coinsEarned st)
       (Statistics.gemsEarned st + finalBonusGems)
       (Statistics.chestsOpened st + 1)
       (Statistics.accuracyByCategory st) (Statistics.sessionStartTime st))
    (set_inventory
       {| Inventory.weapons := Inventory.weapons inv ++ weaponsOf items;
          Inventory.armor := Inventory.armor inv ++ armorOf items;
          Inventory.currentWeapon := Inventory.currentWeapon inv;
          Inventory.currentArmor := Inventory.currentArmor inv |}
       (set_gems (gems prev + finalBonusGems)
          (set_coins (coins prev - chestCost) prev))).

(** ** Intents

    The operations the hook returns, with the values they draw.  The
    timer's tick and the achievement check that [attack] starts from a
    timer are intents of their own; [SaveAndLoad] restores the snapshot that
    the state saved.  [resetGame] is not among them: it starts a new game
    from the initial state. *)
Inductive Intent :=
| EquipWeapon (weapon : Weapon.t)
| EquipArmor (armor : Armor.t)
| UpgradeWeapon (weaponId : string)
| UpgradeArmor (armorId : string)
| SellWeapon (weaponId : string)
| SellArmor (armorId : string)
| UpgradeResearch
| OpenChest (chestCost : Z) (d : ChestDraws)
| StartCombat (enemy : Enemy.t)
| Attack (hit : bool) (category : option string) (uCoins uGems : Q) (now : Z)
| SetGameMode (mode : Mode)
| CheckAndUnlockAchievements
| Tick
| SaveAndLoad (now : Z).

(** ** Predicates used by the statements *)

(** The condition of line 205: the name of [item] is already in the book
    of its category. *)
Definition discovered (item : Item) (s : GameState) : bool :=
  match item with
  | ItemWeapon w => truthy (CollectionBook.weapons (collectionBook s) !! Weapon.name w)
  | ItemArmor a => truthy (CollectionBook.armor (collectionBook s) !! Armor.name a)
  end.

(** Two items that the book files under one entry: same category, same
    name. *)
Definition sameEntry (i j : Item) : Prop :=
  match i, j with
  | ItemWeapon w, ItemWeapon w' => Weapon.name w = Weapon.name w'
  | ItemArmor a, ItemArmor a' => Armor.name a = Armor.name a'
  | _, _ => False
  end.

(** The invariant of the hit points, with what carries it through a lost
    combat: the maximum and its base are not negative. *)
Definition statsSound (s : GameState) : Prop :=
  0 <= PlayerStats.baseHp (playerStats s)
  /\ 0 <= PlayerStats.maxHp (playerStats s)
  /\ PlayerStats.hp (playerStats s) <= PlayerStats.maxHp (playerStats s).

(** What [updatePlayerStats] reads besides the player's stats. *)
Definition sameEquipment (s s' : GameState) : Prop :=
  Inventory.currentWeapon (inventory s') = Inventory.currentWeapon (inventory s)
  /\ Inventory.currentArmor (inventory s') = Inventory.currentArmor (inventory s)
  /\ research s' = research s.

(** The equipped references point into the inventory. *)
Definition equipmentOwned (s : GameState) : Prop :=
  (forall w, Inventory.currentWeapon (inventory s) = Some w ->
             w ∈ Inventory.weapons (inventory s))
  /\ (forall a, Inventory.currentArmor (inventory s) = Some a ->
                a ∈ Inventory.armor (inventory s)).

(** An intent that equips names an item of the inventory. *)
Definition equipsOwned (i : Intent) (s : GameState) : Prop :=
  match i with
  | EquipWeapon w => w ∈ Inventory.weapons (inventory s)
  | EquipArmor a => a ∈ Inventory.armor (inventory s)
  | _ => True
  end.

(** The intents whose precondition is not met, by the guards of the
    updaters: an upgrade of an unknown item or one the gems do not cover
    (lines 384, 414), a sale of an unknown or of the equipped item (lines
    444, 460), a chest the coins do not cover (line 501), an attack
    outside combat (line 563). *)
Definition refused (i : Intent) (s : GameState) : Prop :=
  match i with
  | UpgradeWeapon weaponId =>
      match findWeapon weaponId (Inventory.weapons (inventory s)) with
      | None => True
      | Some weapon => gems s < Weapon.upgradeCost weapon
      end
  | UpgradeArmor armorId =>
      match findArmor armorId (Inventory.armor (inventory s)) with
      | None => True
      | Some armor => gems s < Armor.upgradeCost armor
      end
  | SellWeapon weaponId =>
      findWeapon weaponId (Inventory.weapons (inventory s)) = None
      \/ currentWeaponIs weaponId (inventory s) = true
  | SellArmor armorId =>
      findArmor armorId (Inventory.armor (inventory s)) = None
      \/ currentArmorIs armorId (inventory s) = true
  | OpenChest chestCost _ => coins s < chestCost
  | Attack _ _ _ _ _ => currentEnemy s = None \/ inCombat s = false
  | _ => False
  end.

(** The intents whose callback recomputes the stats after its updater,
    whether the updater refused or not. *)
Definition isUpgrade (i : Intent) : bool :=
  match i with
  | UpgradeWeapon _ | UpgradeArmor _ => true
  | _ => false
  end.

(** ** Sample data

    Concrete utilities, items, enemies and intents on which the theorems
    are run. *)

(** A research bonus of 10 per level and 50 per tier. *)
Definition researchBonusExample (level tier : Z) : Q :=
  inject_Z (Z.max 0 level * 10 + Z.max 0 tier * 50).

(** One achievement, for reaching zone 2, worth 50 coins. *)
Definition zoneTwoAchievement (unlocked : bool) : Achievement.t :=
  {| Achievement.id := "zone_2";
     Achievement.reward := Some {| Reward.coins := Some 50; Reward.gems := None |};
     Achievement.unlocked := unlocked |}.

Definition achievementsExample : list Achievement.t := [zoneTwoAchievement false].

Definition checkAchievementsExample (s : GameState) : list Achievement.t :=
  if (2 <=? zone s)
     && existsb (fun a => bool_decide (Achievement.id a = "zone_2")
                          && negb (Achievement.unlocked a))
          (achievements s)
  then [zoneTwoAchievement true] else [].

Definition ironSword : Weapon.t :=
  {| Weapon.id := "sword-1"; Weapon.name := "Iron Sword"; Weapon.rarity := rare;
     Weapon.level := 1; Weapon.baseAtk := 12;
     Weapon.upgradeCost := 10; Weapon.sellPrice := 25 |}.

Definition leatherVest : Armor.t :=
  {| Armor.id := "vest-1"; Armor.name := "Leather Vest"; Armor.rarity := common;
     Armor.level := 1; Armor.baseDef := 4;
     Armor.upgradeCost := 8; Armor.sellPrice := 15 |}.

(** A chest of two cheap daggers and 10 bonus gems. *)
Definition rustyDagger (i : nat) : Weapon.t :=
  {| Weapon.id := "dagger-" +:+ pretty (Z.of_nat i); Weapon.name := "Rusty Dagger";
     Weapon.rarity := common; Weapon.level := 1; Weapon.baseAtk := 3;
     Weapon.upgradeCost := 1; Weapon.sellPrice := 4 |}.

Definition daggerChest : ChestDraws :=
  {| uNumItems := 0; uBonusGems := 0.5; uType := 0;
     uIsWeapon := fun _ => 0%Q;
     generateWeapon := fun _ i => rustyDagger i;
     generateArmor := fun _ _ => leatherVest |}.

(** A chest of one sword, one vest and 10 bonus gems. *)
Definition armoryChest : ChestDraws :=
  {| uNumItems := 0; uBonusGems := 0.5; uType := 0.7;
     uIsWeapon := fun i => match i with O => 0.2%Q | _ => 0.8%Q end;
     generateWeapon := fun _ _ => ironSword;
     generateArmor := fun _ _ => leatherVest |}.

(** An enemy that falls to one hit and one that fells the player with one. *)
Definition slime : Enemy.t :=
  {| Enemy.name := "Slime"; Enemy.zone := 1; Enemy.hp := 1; Enemy.maxHp := 1;
     Enemy.atk := 1; Enemy.def := 0 |}.

Definition ogre : Enemy.t :=
  {| Enemy.name := "Ogre"; Enemy.zone := 1; Enemy.hp := 100000; Enemy.maxHp := 100000;
     Enemy.atk := 1000; Enemy.def := 0 |}.


Definition armed : list Intent := [OpenChest 50 armoryChest; EquipWeapon ironSword].

Definition inSurvivalCombat : list Intent := [SetGameMode survival; StartCombat ogre].


(** ** The engine over the imported utilities *)

Section Engine.

(** [calculateResearchBonus (level, tier)] of [utils/gameUtils]: a
    percentage. *)
Variable calculateResearchBonus : Z -> Z -> Q.

(** [initializeAchievements ()] and [checkAchievements (state)] of
    [utils/achievements]. *)
Variable initializeAchievements : list Achievement.t.
Variable checkAchievements : GameState -> list Achievement.t.

Definition initialGameState (now : Z) : GameState :=
  {| coins := 100; gems := 0; zone := 1;
     playerStats := initialPlayerStats;
     inventory := initialInventory;
     currentEnemy := None; inCombat := false; combatLog := [];
     research := initialResearch;
     isPremium := false;
     achievements := initializeAchievements;
     collectionBook := initialCollectionBook;
     knowledgeStreak := initialKnowledgeStreak;
     gameMode := initialGameMode;
     statistics := initialStatistics now |}.

(** [resetGame], lines 710-724. *)
Definition resetGame (now : Z) : GameState :=
  set_statistics (initialStatistics now)
    (set_achievements initializeAchievements (initialGameState now)).

(** [1 + researchBonus / 100], lines 327-328. *)
Definition bonusMultiplier (r : Research.t) : Q :=
  1 + calculateResearchBonus (Research.level r) (Research.tier r) / 100.

(** [updatePlayerStats], lines 318-345. *)
Definition updatePlayerStats (prev : GameState) : GameState :=
  let inv := inventory prev in
  let ps := playerStats prev in
  let weaponAtk :=
    match Inventory.currentWeapon inv with
    | Some w => Weapon.baseAtk w + (Weapon.level w - 1) * 10
    | None => 0
    end in
  let armorDef :=
    match Inventory.currentArmor inv with
    | Some a => Armor.baseDef a + (Armor.level a - 1) * 5
    | None => 0
    end in
  let finalAtk := floorMul (PlayerStats.baseAtk ps + weaponAtk) (bonusMultiplier (research prev)) in
  let finalDef := floorMul (PlayerStats.baseDef ps + armorDef) (bonusMultiplier (research prev)) in
  let finalMaxHp := floorMul (PlayerStats.baseHp ps) (bonusMultiplier (research prev)) in
  set_playerStats
    {| PlayerStats.hp := Z.min (PlayerStats.hp ps) finalMaxHp;
       PlayerStats.maxHp := finalMaxHp;
       PlayerStats.atk := finalAtk;
       PlayerStats.def := finalDef;
       PlayerStats.baseAtk := PlayerStats.baseAtk ps;
       PlayerStats.baseDef := PlayerStats.baseDef ps;
       PlayerStats.baseHp := PlayerStats.baseHp ps |}
    prev.

(** [achievement.reward.coins || 0] and [... .gems || 0], guarded by
    [if (achievement.reward)]. *)
Definition rewardCoins (a : Achievement.t) : Z :=
  match Achievement.reward a with
  | Some r => default 0 (Reward.coins r)
  | None => 0
  end.

Definition rewardGems (a : Achievement.t) : Z :=
  match Achievement.reward a with
  | Some r => default 0 (Reward.gems r)
  | None => 0
  end.

(** [checkAndUnlockAchievements], lines 274-316. *)
Definition checkAndUnlockAchievements (prev : GameState) : GameState :=
  let newUnlocks := checkAchievements prev in
  if 0 <? Z.of_nat (length newUnlocks) then
    let bonusCoins := foldl (fun acc a => acc + rewardCoins a) 0 newUnlocks in
    let bonusGems := foldl (fun acc a => acc + rewardGems a) 0 newUnlocks in
    let updatedAchievements :=
      map (fun existing =>
             match List.find (fun nu => bool_decide (Achievement.id nu = Achievement.id existing))
                     newUnlocks with
             | Some newUnlock => newUnlock
             | None => existing
             end)
        (achievements prev) in
    set_achievements updatedAchievements
      (set_gems (gems prev + bonusGems)
         (set_coins (coins prev + bonusCoins) prev))
  else prev.

(** [equipWeapon], lines 359-368: the updater, then [updatePlayerStats]. *)
Definition equipWeapon (weapon : Weapon.t) (s : GameState) : GameState :=
  updatePlayerStats (equipWeapon_upd weapon s).

(** [equipArmor], lines 370-379. *)
Definition equipArmor (armor : Armor.t) (s : GameState) : GameState :=
  updatePlayerStats (equipArmor_upd armor s).

(** [upgradeWeapon], lines 381-409. *)
Definition upgradeWeapon (weaponId : string) (s : GameState) : GameState :=
  updatePlayerStats (upgradeWeapon_upd weaponId s).

(** [upgradeArmor], lines 411-439. *)
Definition upgradeArmor (armorId : string) (s : GameState) : GameState :=
  updatePlayerStats (upgradeArmor_upd armorId s).

(** [upgradeResearch], lines 473-498. *)
Definition upgradeResearch (s : GameState) : GameState :=
  checkAndUnlockAchievements (updatePlayerStats (upgradeResearch_upd s)).

(** [openChest], lines 500-545: the reward handed to the caller and the
    state after the updaters it queued ([updateCollectionBook] for every
    item, its own, [checkAndUnlockAchievements]). *)
Definition openChest (chestCost : Z) (d : ChestDraws) (gameState : GameState)
    : option ChestReward.t * GameState :=
  if coins gameState <? chestCost then (None, gameState)
  else
    let numItems := randomInt (uNumItems d) 2 + 2 in
    let bonusGems := randomInt (uBonusGems d) 10 + 5 in
    let isMythicalChest := bool_decide (chestCost = 2500) in
    let items := map (drawItem d isMythicalChest) (seq 0 (Z.to_nat numItems)) in
    let chestReward :=
      {| ChestReward.type := if randomBelowHalf (uType d) then chestWeapon else chestArmor;
         ChestReward.items := items |} in
    let streakMultiplier := KnowledgeStreak.multiplier (knowledgeStreak gameState) in
    let finalBonusGems := floorMul bonusGems streakMultiplier in
    let s1 := foldl (fun s item => updateCollectionBook item s) gameState items in
    let s2 := openChest_upd chestCost finalBonusGems items s1 in
    (Some chestReward, checkAndUnlockAchievements s2).

(** ** Dispatch *)

Definition dispatch (i : Intent) (s : GameState) : GameState :=
  match i with
  | EquipWeapon w => equipWeapon w s
  | EquipArmor a => equipArmor a s
  | UpgradeWeapon n => upgradeWeapon n s
  | UpgradeArmor n => upgradeArmor n s
  | SellWeapon n => sellWeapon n s
  | SellArmor n => sellArmor n s
  | UpgradeResearch => upgradeResearch s
  | OpenChest c d => (openChest c d s).2
  | StartCombat e => startCombat e s
  | Attack h c u1 u2 now => attack h c u1 u2 now s
  | SetGameMode m => setGameMode m s
  | CheckAndUnlockAchievements => checkAndUnlockAchievements s
  | Tick => tickPlayTime s
  | SaveAndLoad now => loadGameState now (saveGameState s)
  end.

(** The states the game can be in: the initial state, and whatever an
    intent makes of a reachable state. *)
Inductive reachable : GameState -> Prop :=
| reachable_init now : reachable (initialGameState now)
| reachable_step s i : reachable s -> reachable (dispatch i s).

(** Running a list of intents, first to last. *)
Definition run (l : list Intent) (s : GameState) : GameState :=
  foldl (fun s i => dispatch i s) s l.

(** ** Predicates over the engine *)

(** The derived stats are up to date: recomputing them changes nothing. *)
Definition statsCurrent (s : GameState) : Prop := updatePlayerStats s = s.

(** The two ways an intent touches the player's stats: it ends with a
    recomputation, or it keeps the equipment and research and at most
    moves [hp], to [maxHp] or to a value between 0 and the old [hp]. *)
Inductive statsStep (s s' : GameState) : Prop :=
| stats_recomputed s0 :
    playerStats s' = playerStats (updatePlayerStats s0) ->
    sameEquipment s0 s' ->
    PlayerStats.baseHp (playerStats s0) = PlayerStats.baseHp (playerStats s) ->
    statsStep s s'
| stats_hp v :
    sameEquipment s s' ->
    playerStats s' = set_hp v (playerStats s) ->
    v = PlayerStats.hp (playerStats s)
    \/ v = PlayerStats.maxHp (playerStats s)
    \/ 0 <= v <= Z.max 0 (PlayerStats.hp (playerStats s)) ->
    statsStep s s'.

(** The states reached when every equip names an item of the inventory. *)
Inductive playable : GameState -> Prop :=
| playable_init now : playable (initialGameState now)
| playable_step s i : playable s -> equipsOwned i s -> playable (dispatch i s).

(** ** Arithmetic of the multipliers *)






(** ** The knowledge streak *)


(** ** Lists keyed by an id *)

Section Keyed.
Context {A : Type} (key : A -> string) (f : A -> A).
Hypothesis key_f : forall x, key (f x) = key x.

Let findBy (k : string) (l : list A) : option A :=
  List.find (fun x => bool_decide (key x = k)) l.
Let mapAt (k : string) (l : list A) : list A :=
  map (fun x => if bool_decide (key x = k) then f x else x) l.
Let dropAt (k : string) (l : list A) : list A :=
  List.filter (fun x => negb (bool_decide (key x = k))) l.

Lemma findBy_Some k l x : findBy k l = Some x -> x ∈ l /\ key x = k.
Proof.
  unfold findBy. intros H. apply find_some in H as [Hin Hk].
  apply bool_decide_eq_true in Hk. split; [now apply list_elem_of_In|done].
Qed.

Lemma findBy_None k l x : findBy k l = None -> x ∈ l -> key x <> k.
Proof.
  unfold findBy. intros H Hin Hk. apply list_elem_of_In in Hin.
  pose proof (find_none _ _ H _ Hin) as Hf. simpl in Hf.
  apply bool_decide_eq_false in Hf. contradiction.
Qed.

Lemma findBy_unique l x : x ∈ l -> NoDup (map key l) -> findBy (key x) l = Some x.
Proof.
  unfold findBy. induction l as [|y l IH]; intros Hin Hnd.
  - inversion Hin.
  - simpl in *. apply NoDup_cons in Hnd as [Hy Hnd].
    apply elem_of_cons in Hin as [->|Hin].
    + now rewrite bool_decide_eq_true_2.
    + rewrite bool_decide_eq_false_2; [now apply IH|].
      intros Heq. apply Hy. rewrite Heq. now apply list_elem_of_fmap_2.
Qed.

Lemma findBy_mapAt k l x : findBy k l = Some x -> findBy k (mapAt k l) = Some (f x).
Proof.
  unfold findBy, mapAt. induction l as [|y l IH]; simpl; [discriminate|].
  destruct (bool_decide (key y = k)) eqn:Hy.
  - intros [= ->]. rewrite key_f, Hy. reflexivity.
  - rewrite Hy. exact IH.
Qed.

Lemma mapAt_hit k l x : x ∈ l -> key x = k -> f x ∈ mapAt k l.
Proof.
  intros Hin Hk. unfold mapAt.
  apply list_elem_of_fmap. exists x. now rewrite bool_decide_eq_true_2.
Qed.

Lemma mapAt_miss k l x : x ∈ l -> key x <> k -> x ∈ mapAt k l.
Proof.
  intros Hin Hk. unfold mapAt.
  apply list_elem_of_fmap. exists x. now rewrite bool_decide_eq_false_2.
Qed.

Lemma dropAt_miss k l x : x ∈ l -> key x <> k -> x ∈ dropAt k l.
Proof.
  intros Hin Hk. unfold dropAt. apply list_elem_of_In, filter_In.
  split; [now apply list_elem_of_In|]. now rewrite bool_decide_eq_false_2.
Qed.
End Keyed.

(** ** The collection book *)

Lemma updateCollectionBook_discovered item s :
  discovered item s = true -> updateCollectionBook item s = s.
Proof.
  destruct item; unfold discovered, updateCollectionBook; simpl; intros ->; reflexivity.
Qed.

Lemma discovered_after_update item s :
  discovered item (updateCollectionBook item s) = true.
Proof.
  destruct item as [w|a]; unfold updateCollectionBook; simpl.
  - destruct (truthy (CollectionBook.weapons (collectionBook s) !! Weapon.name w)) eqn:E;
      simpl; [exact E|]. now rewrite lookup_insert_eq.
  - destruct (truthy (CollectionBook.armor (collectionBook s) !! Armor.name a)) eqn:E;
      simpl; [exact E|]. now rewrite lookup_insert_eq.
Qed.

Lemma discovered_sameEntry i j s :
  sameEntry i j -> discovered i s = discovered j s.
Proof. destruct i, j; simpl; intros H; try contradiction; now rewrite H. Qed.

(** C9.  Recording an item whose name is already in the book of its
    category returns the state as it is, so neither
    [totalWeaponsFound]/[totalArmorFound], nor the rarity tally, nor
    [itemsCollected] moves; and after an item has been recorded, recording
    it or any other item of that name and category again changes nothing,
    however often. *)
Theorem updateCollectionBook_once_per_name :
  (forall item s, discovered item s = true -> updateCollectionBook item s = s)
  /\ (forall item item' s,
        sameEntry item item' ->
        updateCollectionBook item' (updateCollectionBook item s) = updateCollectionBook item s)
  /\ (forall item (n : nat) s,
        Nat.iter n (updateCollectionBook item) (updateCollectionBook item s)
        = updateCollectionBook item s).
Proof.
  split; [exact updateCollectionBook_discovered|].
  assert (Hsame : forall item item' s, sameEntry item item' ->
    updateCollectionBook item' (updateCollectionBook item s) = updateCollectionBook item s).
  { intros item item' s Hs. apply updateCollectionBook_discovered.
    rewrite <- (discovered_sameEntry _ _ _ Hs). apply discovered_after_update. }
  split; [exact Hsame|].
  intros item n s. induction n as [|n IH]; simpl; [reflexivity|].
  rewrite IH. apply Hsame. destruct item; simpl; reflexivity.
Qed.

(** ** Upgrading *)

Lemma floorMul_1_5 (x : Z) : floorMul x 1.5 = x * 15 / 10.
Proof. reflexivity. Qed.

Lemma floorMul_1_2 (x : Z) : floorMul x 1.2 = x * 12 / 10.
Proof. reflexivity. Qed.

Lemma floorMul_1_5_bounds (x : Z) :
  (0 <= x < 2 -> floorMul x 1.5 = x) /\ (2 <= x -> x < floorMul x 1.5).
Proof. rewrite floorMul_1_5. split; intros; Z.div_mod_to_equations; lia. Qed.

Lemma floorMul_1_2_bounds (x : Z) :
  (0 <= x < 5 -> floorMul x 1.2 = x) /\ (5 <= x -> x < floorMul x 1.2).
Proof. rewrite floorMul_1_2. split; intros; Z.div_mod_to_equations; lia. Qed.

Lemma upgradeWeapon_upd_found weaponId weapon s :
  findWeapon weaponId (Inventory.weapons (inventory s)) = Some weapon ->
  Weapon.upgradeCost weapon <= gems s ->
  let s' := upgradeWeapon_upd weaponId s in
  gems s' = gems s - Weapon.upgradeCost weapon
  /\ Inventory.weapons (inventory s')
     = map (fun w => if bool_decide (Weapon.id w = weaponId) then upgradedWeapon w else w)
         (Inventory.weapons (inventory s))
  /\ Inventory.currentWeapon (inventory s')
     = (if currentWeaponIs weaponId (inventory s) then Some (upgradedWeapon weapon)
        else Inventory.currentWeapon (inventory s))
  /\ Inventory.armor (inventory s') = Inventory.armor (inventory s)
  /\ Inventory.currentArmor (inventory s') = Inventory.currentArmor (inventory s).
Proof.
  intros Hfind Hgems. unfold upgradeWeapon_upd. rewrite Hfind.
  destruct (Z.ltb_spec (gems s) (Weapon.upgradeCost weapon)) as [Hlt|_]; [lia|].
  simpl. repeat split.
  destruct (currentWeaponIs weaponId (inventory s)); [|reflexivity].
  now apply (findBy_mapAt Weapon.id upgradedWeapon).
Qed.

Lemma upgradeArmor_upd_found armorId armor s :
  findArmor armorId (Inventory.armor (inventory s)) = Some armor ->
  Armor.upgradeCost armor <= gems s ->
  let s' := upgradeArmor_upd armorId s in
  gems s' = gems s - Armor.upgradeCost armor
  /\ Inventory.armor (inventory s')
     = map (fun a => if bool_decide (Armor.id a = armorId) then upgradedArmor a else a)
         (Inventory.armor (inventory s))
  /\ Inventory.currentArmor (inventory s')
     = (if currentArmorIs armorId (inventory s) then Some (upgradedArmor armor)
        else Inventory.currentArmor (inventory s))
  /\ Inventory.weapons (inventory s') = Inventory.weapons (inventory s)
  /\ Inventory.currentWeapon (inventory s') = Inventory.currentWeapon (inventory s).
Proof.
  intros Hfind Hgems. unfold upgradeArmor_upd. rewrite Hfind.
  destruct (Z.ltb_spec (gems s) (Armor.upgradeCost armor)) as [Hlt|_]; [lia|].
  simpl. repeat split.
  destruct (currentArmorIs armorId (inventory s)); [|reflexivity].
  now apply (findBy_mapAt Armor.id upgradedArmor).
Qed.

(** C6, as the code has it.  With unique ids, upgrading a weapon (an
    armor) of the inventory whose [upgradeCost] the gems cover deducts
    that cost, replaces the item by one of level [level + 1], upgrade cost
    [floor (upgradeCost * 1.5)] and sell price [floor (sellPrice * 1.2)],
    leaves the other items as they are, and hands the replaced item to the
    equipped reference when that reference has its id.  The new cost is
    above the old one for a cost of at least 2 and equal to it for a cost
    of 0 or 1; the new price is above the old one for a price of at least 5
    and equal to it for a price of 0 to 4. *)
Theorem upgrade_item_effect :
  (forall s w,
      w ∈ Inventory.weapons (inventory s) ->
      NoDup (map Weapon.id (Inventory.weapons (inventory s))) ->
      Weapon.upgradeCost w <= gems s ->
      let s' := upgradeWeapon (Weapon.id w) s in
      let w' := upgradedWeapon w in
      gems s' = gems s - Weapon.upgradeCost w
      /\ w' ∈ Inventory.weapons (inventory s')
      /\ (forall x, x ∈ Inventory.weapons (inventory s) -> x <> w ->
                    x ∈ Inventory.weapons (inventory s'))
      /\ length (Inventory.weapons (inventory s')) = length (Inventory.weapons (inventory s))
      /\ Weapon.level w' = Weapon.level w + 1
      /\ Weapon.upgradeCost w' = Qfloor (inject_Z (Weapon.upgradeCost w) * 1.5)
      /\ Weapon.sellPrice w' = Qfloor (inject_Z (Weapon.sellPrice w) * 1.2)
      /\ (0 <= Weapon.upgradeCost w < 2 -> Weapon.upgradeCost w' = Weapon.upgradeCost w)
      /\ (2 <= Weapon.upgradeCost w -> Weapon.upgradeCost w < Weapon.upgradeCost w')
      /\ (0 <= Weapon.sellPrice w < 5 -> Weapon.sellPrice w' = Weapon.sellPrice w)
      /\ (5 <= Weapon.sellPrice w -> Weapon.sellPrice w < Weapon.sellPrice w')
      /\ (currentWeaponIs (Weapon.id w) (inventory s) = true ->
          Inventory.currentWeapon (inventory s') = Some w'))
  /\ (forall s a,
      a ∈ Inventory.armor (inventory s) ->
      NoDup (map Armor.id (Inventory.armor (inventory s))) ->
      Armor.upgradeCost a <= gems s ->
      let s' := upgradeArmor (Armor.id a) s in
      let a' := upgradedArmor a in
      gems s' = gems s - Armor.upgradeCost a
      /\ a' ∈ Inventory.armor (inventory s')
      /\ (forall x, x ∈ Inventory.armor (inventory s) -> x <> a ->
                    x ∈ Inventory.armor (inventory s'))
      /\ length (Inventory.armor (inventory s')) = length (Inventory.armor (inventory s))
      /\ Armor.level a' = Armor.level a + 1
      /\ Armor.upgradeCost a' = Qfloor (inject_Z (Armor.upgradeCost a) * 1.5)
      /\ Armor.sellPrice a' = Qfloor (inject_Z (Armor.sellPrice a) * 1.2)
      /\ (0 <= Armor.upgradeCost a < 2 -> Armor.upgradeCost a' = Armor.upgradeCost a)
      /\ (2 <= Armor.upgradeCost a -> Armor.upgradeCost a < Armor.upgradeCost a')
      /\ (0 <= Armor.sellPrice a < 5 -> Armor.sellPrice a' = Armor.sellPrice a)
      /\ (5 <= Armor.sellPrice a -> Armor.sellPrice a < Armor.sellPrice a')
      /\ (currentArmorIs (Armor.id a) (inventory s) = true ->
          Inventory.currentArmor (inventory s') = Some a')).
Proof.
  split.
  - intros s w Hin Hnd Hgems s' w'.
    pose proof (findBy_unique Weapon.id _ _ Hin Hnd) as Hfind.
    destruct (upgradeWeapon_upd_found _ _ _ Hfind Hgems) as (Hg & Hws & Hcw & _).
    assert (Hother : forall x, x ∈ Inventory.weapons (inventory s) -> x <> w ->
                               Weapon.id x <> Weapon.id w).
    { intros x Hx Hne Hid. apply Hne.
      pose proof (findBy_unique Weapon.id _ _ Hx Hnd) as Hfx.
      rewrite Hid in Hfx. congruence. }
    subst s' w'. unfold upgradeWeapon. simpl. rewrite Hg, Hws, Hcw.
    split; [reflexivity|].
    split; [now apply (mapAt_hit Weapon.id upgradedWeapon)|].
    split; [intros x Hx Hne; apply (mapAt_miss Weapon.id upgradedWeapon); auto|].
    split; [apply length_map|].
    split; [reflexivity|].
    split; [reflexivity|].
    split; [reflexivity|].
    split; [apply floorMul_1_5_bounds|].
    split; [apply floorMul_1_5_bounds|].
    split; [apply floorMul_1_2_bounds|].
    split; [apply floorMul_1_2_bounds|].
    now intros ->.
  - intros s a Hin Hnd Hgems s' a'.
    pose proof (findBy_unique Armor.id _ _ Hin Hnd) as Hfind.
    destruct (upgradeArmor_upd_found _ _ _ Hfind Hgems) as (Hg & Hws & Hcw & _).
    assert (Hother : forall x, x ∈ Inventory.armor (inventory s) -> x <> a ->
                               Armor.id x <> Armor.id a).
    { intros x Hx Hne Hid. apply Hne.
      pose proof (findBy_unique Armor.id _ _ Hx Hnd) as Hfx.
      rewrite Hid in Hfx. congruence. }
    subst s' a'. unfold upgradeArmor. simpl. rewrite Hg, Hws, Hcw.
    split; [reflexivity|].
    split; [now apply (mapAt_hit Armor.id upgradedArmor)|].
    split; [intros x Hx Hne; apply (mapAt_miss Armor.id upgradedArmor); auto|].
    split; [apply length_map|].
    split; [reflexivity|].
    split; [reflexivity|].
    split; [reflexivity|].
    split; [apply floorMul_1_5_bounds|].
    split; [apply floorMul_1_5_bounds|].
    split; [apply floorMul_1_2_bounds|].
    split; [apply floorMul_1_2_bounds|].
    now intros ->.
Qed.

(** ** Combat *)


Lemma attack_in_combat hit category uCoins uGems now enemy s :
  currentEnemy s = Some enemy -> inCombat s = true ->
  attack hit category uCoins uGems now s
  = updateKnowledgeStreak hit now
      (recordCategory category hit (attack_upd hit uCoins uGems s)).
Proof. intros He Hc. unfold attack. now rewrite He, Hc. Qed.


Lemma attack_upd_loss uCoins uGems enemy s :
  currentEnemy s = Some enemy -> inCombat s = true ->
  Z.max 0 (PlayerStats.hp (playerStats s)
           - Z.max 1 (Enemy.atk enemy - PlayerStats.def (playerStats s))) = 0 ->
  attack_upd false uCoins uGems s
  = loseCombat (newCombatLog (resolveAnswer false enemy s)) 0 s.
Proof.
  intros He Hc Hhp. unfold attack_upd. rewrite He, Hc. simpl.
  unfold resolveAnswer. rewrite Hhp. reflexivity.
Qed.


Lemma loseCombat_survival_reset log hp' s :
  GameMode.current (gameMode s) = survival ->
  GameMode.survivalLives (gameMode s) - 1 <= 0 ->
  loseCombat log hp' s
  = set_knowledgeStreak
      (KnowledgeStreak.mk 0 (KnowledgeStreak.best (knowledgeStreak s))
         (KnowledgeStreak.multiplier (knowledgeStreak s))
         (KnowledgeStreak.lastCorrectTime (knowledgeStreak s)))
      (set_gameMode initialGameMode
         (set_playerStats (set_hp 0 (playerStats s))
            (set_combatLog log
               (set_inCombat false (set_currentEnemy None (set_zone 1 s)))))).
Proof.
  intros Hm Hl. unfold loseCombat. rewrite Hm. simpl.
  destruct (Z.leb_spec (GameMode.survivalLives (gameMode s) - 1) 0); [reflexivity|lia].
Qed.

Lemma loseCombat_survival_continue log hp' s :
  GameMode.current (gameMode s) = survival ->
  0 < GameMode.survivalLives (gameMode s) - 1 ->
  loseCombat log hp' s
  = set_gameMode (set_survivalLives (GameMode.survivalLives (gameMode s) - 1) (gameMode s))
      (set_playerStats (set_hp hp' (playerStats s))
         (set_combatLog log (set_inCombat false (set_currentEnemy None s)))).
Proof.
  intros Hm Hl. unfold loseCombat. rewrite Hm. simpl.
  destruct (Z.leb_spec (GameMode.survivalLives (gameMode s) - 1) 0); [lia|reflexivity].
Qed.

(** C3.  In survival mode a lost combat clears the combat and leaves
    inventory, coins, gems and research as they were.  When the lives
    minus one are 0 or less, the zone becomes 1, the game mode becomes the
    initial one (normal, lives equal to the maximum of 3), the streak's
    [current] becomes 0 and [hp] becomes 0; otherwise the game mode keeps
    everything but [survivalLives], which is one less, and the zone
    stays. *)
Theorem survival_loss :
  forall s enemy category uCoins uGems now,
    currentEnemy s = Some enemy ->
    inCombat s = true ->
    GameMode.current (gameMode s) = survival ->
    Z.max 0 (PlayerStats.hp (playerStats s)
             - Z.max 1 (Enemy.atk enemy - PlayerStats.def (playerStats s))) = 0 ->
    let s' := attack false category uCoins uGems now s in
    let lives := GameMode.survivalLives (gameMode s) in
    inCombat s' = false /\ currentEnemy s' = None
    /\ inventory s' = inventory s /\ coins s' = coins s /\ gems s' = gems s
    /\ research s' = research s
    /\ (lives - 1 <= 0 ->
        zone s' = 1
        /\ GameMode.current (gameMode s') = normal
        /\ GameMode.survivalLives (gameMode s') = GameMode.maxSurvivalLives (gameMode s')
        /\ gameMode s' = initialGameMode
        /\ KnowledgeStreak.current (knowledgeStreak s') = 0
        /\ PlayerStats.hp (playerStats s') = 0)
    /\ (0 < lives - 1 ->
        zone s' = zone s
        /\ gameMode s' = set_survivalLives (lives - 1) (gameMode s)
        /\ GameMode.current (gameMode s') = survival
        /\ GameMode.survivalLives (gameMode s') = lives - 1).
Proof.
  intros s enemy category uCoins uGems now He Hc Hm Hhp s' lives.
  subst s'. rewrite (attack_in_combat _ _ _ _ _ _ _ He Hc).
  rewrite (attack_upd_loss _ _ _ _ He Hc Hhp).
  destruct (Z.le_gt_cases (lives - 1) 0) as [Hl|Hl].
  - rewrite (loseCombat_survival_reset _ _ _ Hm Hl).
    destruct category as [[|? ?]|]; simpl; repeat split; intros; try reflexivity; lia.
  - rewrite (loseCombat_survival_continue _ _ _ Hm Hl).
    destruct category as [[|? ?]|]; simpl; repeat split; intros; try assumption; try reflexivity; lia.
Qed.

(** C10.  In survival mode a combat lost with lives to spare leaves [hp]
    at 0 and the mode in place; the next [startCombat] keeps that [hp], so
    the new combat starts at [hp = 0]; and one missed answer there ends it
    as a loss: the combat is cleared, [hp] is 0 again, and one more life
    is gone (or, with no life left, the game is reset to zone 1 and
    normal mode). *)
Theorem survival_hp_not_restored :
  forall s enemy category uCoins uGems now enemy' category' uCoins' uGems' now',
    currentEnemy s = Some enemy ->
    inCombat s = true ->
    GameMode.current (gameMode s) = survival ->
    Z.max 0 (PlayerStats.hp (playerStats s)
             - Z.max 1 (Enemy.atk enemy - PlayerStats.def (playerStats s))) = 0 ->
    0 < GameMode.survivalLives (gameMode s) - 1 ->
    let lives := GameMode.survivalLives (gameMode s) in
    let s1 := attack false category uCoins uGems now s in
    let s2 := startCombat enemy' s1 in
    let s3 := attack false category' uCoins' uGems' now' s2 in
    (PlayerStats.hp (playerStats s1) = 0
     /\ GameMode.current (gameMode s1) = survival /\ inCombat s1 = false)
    /\ (PlayerStats.hp (playerStats s2) = 0
        /\ inCombat s2 = true /\ currentEnemy s2 = Some enemy')
    /\ (inCombat s3 = false /\ currentEnemy s3 = None
        /\ PlayerStats.hp (playerStats s3) = 0
        /\ (0 < lives - 2 ->
            GameMode.current (gameMode s3) = survival
            /\ GameMode.survivalLives (gameMode s3) = lives - 2)
        /\ (lives - 2 <= 0 -> gameMode s3 = initialGameMode /\ zone s3 = 1)).
Proof.
  intros s enemy category uCoins uGems now enemy' category' uCoins' uGems' now'
    He Hc Hm Hhp Hl lives s1 s2 s3.
  assert (H1 : PlayerStats.hp (playerStats s1) = 0
               /\ GameMode.current (gameMode s1) = survival /\ inCombat s1 = false
               /\ GameMode.survivalLives (gameMode s1) = lives - 1).
  { subst s1. rewrite (attack_in_combat _ _ _ _ _ _ _ He Hc).
    rewrite (attack_upd_loss _ _ _ _ He Hc Hhp).
    rewrite (loseCombat_survival_continue _ _ _ Hm Hl).
    destruct category as [[|? ?]|]; simpl; repeat split; assumption. }
  destruct H1 as (Hhp1 & Hm1 & Hc1 & Hl1).
  assert (H2 : PlayerStats.hp (playerStats s2) = 0
               /\ inCombat s2 = true /\ currentEnemy s2 = Some enemy'
               /\ gameMode s2 = gameMode s1
               /\ PlayerStats.def (playerStats s2) = PlayerStats.def (playerStats s1)).
  { subst s2. unfold startCombat. simpl. rewrite Hm1.
    rewrite bool_decide_eq_true_2 by reflexivity. repeat split. exact Hhp1. }
  destruct H2 as (Hhp2 & Hc2 & He2 & Hg2 & _).
  clearbody s2 s1.
  split; [repeat split; assumption|].
  split; [repeat split; assumption|].
  assert (Hm2 : GameMode.current (gameMode s2) = survival) by (rewrite Hg2; exact Hm1).
  assert (Hl2 : GameMode.survivalLives (gameMode s2) = lives - 1) by (rewrite Hg2; exact Hl1).
  assert (Hloss : Z.max 0 (PlayerStats.hp (playerStats s2)
             - Z.max 1 (Enemy.atk enemy' - PlayerStats.def (playerStats s2))) = 0)
    by (rewrite Hhp2; lia).
  subst s3. rewrite (attack_in_combat _ _ _ _ _ _ _ He2 Hc2).
  rewrite (attack_upd_loss _ _ _ _ He2 Hc2 Hloss).
  destruct (Z.le_gt_cases (lives - 2) 0) as [Hz|Hz].
  - rewrite (loseCombat_survival_reset _ _ _ Hm2) by (rewrite Hl2; lia).
    destruct category' as [[|? ?]|]; simpl; repeat split; intros; try reflexivity; lia.
  - rewrite (loseCombat_survival_continue _ _ _ Hm2) by (rewrite Hl2; lia).
    destruct category' as [[|? ?]|]; simpl; rewrite Hl2; repeat split; intros;
      try assumption; try reflexivity; lia.
Qed.

(** ** What the updaters leave alone *)

Lemma set_hp_same (p : PlayerStats.t) : set_hp (PlayerStats.hp p) p = p.
Proof. now destruct p. Qed.

Lemma checkAndUnlockAchievements_frame s :
  let s' := checkAndUnlockAchievements s in
  playerStats s' = playerStats s /\ inventory s' = inventory s
  /\ research s' = research s /\ isPremium s' = isPremium s
  /\ combatLog s' = combatLog s /\ zone s' = zone s.
Proof.
  unfold checkAndUnlockAchievements.
  destruct (0 <? Z.of_nat (length (checkAchievements s))); simpl; repeat split.
Qed.

Lemma updateCollectionBook_frame item s :
  let s' := updateCollectionBook item s in
  playerStats s' = playerStats s /\ inventory s' = inventory s
  /\ research s' = research s /\ isPremium s' = isPremium s
  /\ coins s' = coins s /\ gems s' = gems s.
Proof.
  destruct item as [w|a]; unfold updateCollectionBook.
  - destruct (truthy _); simpl; repeat split.
  - destruct (truthy _); simpl; repeat split.
Qed.

Lemma recordItems_frame items s :
  let s' := foldl (fun s item => updateCollectionBook item s) s items in
  playerStats s' = playerStats s /\ inventory s' = inventory s
  /\ research s' = research s /\ isPremium s' = isPremium s
  /\ coins s' = coins s /\ gems s' = gems s.
Proof.
  revert s. induction items as [|item items IH]; intros s; simpl; [repeat split|].
  destruct (IH (updateCollectionBook item s)) as (H1 & H2 & H3 & H4 & H5 & H6).
  destruct (updateCollectionBook_frame item s) as (G1 & G2 & G3 & G4 & G5 & G6).
  simpl in *. repeat split; congruence.
Qed.

Lemma openChest_state chestCost d s :
  (openChest chestCost d s).2 = s
  \/ exists items gemsWon,
      let s1 := foldl (fun s item => updateCollectionBook item s) s items in
      (openChest chestCost d s).2
      = checkAndUnlockAchievements (openChest_upd chestCost gemsWon items s1).
Proof.
  unfold openChest. destruct (coins s <? chestCost); [now left|]. right. simpl. eauto.
Qed.

Lemma openChest_frame chestCost d s :
  let s' := (openChest chestCost d s).2 in
  playerStats s' = playerStats s /\ research s' = research s
  /\ isPremium s' = isPremium s
  /\ Inventory.currentWeapon (inventory s') = Inventory.currentWeapon (inventory s)
  /\ Inventory.currentArmor (inventory s') = Inventory.currentArmor (inventory s)
  /\ (exists ws, Inventory.weapons (inventory s') = Inventory.weapons (inventory s) ++ ws)
  /\ (exists az, Inventory.armor (inventory s') = Inventory.armor (inventory s) ++ az).
Proof.
  destruct (openChest_state chestCost d s) as [->|(items & g & ->)].
  - repeat split; exists []; now rewrite app_nil_r.
  - destruct (checkAndUnlockAchievements_frame
                (openChest_upd chestCost g items
                   (foldl (fun s item => updateCollectionBook item s) s items)))
      as (H1 & H2 & H3 & H4 & _).
    destruct (recordItems_frame items s) as (G1 & G2 & G3 & G4 & _).
    simpl in *. rewrite H1, H2, H3, H4. simpl. rewrite G1, G2, G3, G4.
    repeat split; eauto.
Qed.

Lemma attack_upd_stats hit uCoins uGems s :
  let s' := attack_upd hit uCoins uGems s in
  inventory s' = inventory s /\ research s' = research s
  /\ exists v, playerStats s' = set_hp v (playerStats s)
               /\ (v = PlayerStats.hp (playerStats s)
                   \/ 0 <= v <= Z.max 0 (PlayerStats.hp (playerStats s))).
Proof.
  unfold attack_upd.
  destruct (currentEnemy s) as [enemy|];
    [|simpl; repeat split; exists (PlayerStats.hp (playerStats s));
      rewrite set_hp_same; auto].
  destruct (inCombat s); simpl;
    [|repeat split; exists (PlayerStats.hp (playerStats s)); rewrite set_hp_same; auto].
  unfold resolveAnswer. destruct hit.
  - destruct (_ <=? 0); simpl; repeat split;
      exists (PlayerStats.hp (playerStats s)); rewrite set_hp_same; auto.
  - set (damage := Z.max 1 (Enemy.atk enemy - PlayerStats.def (playerStats s))).
    destruct (Z.leb_spec (Z.max 0 (PlayerStats.hp (playerStats s) - damage)) 0) as [Hz|Hz];
      simpl.
    + unfold loseCombat.
      destruct (bool_decide (GameMode.current (gameMode s) = survival)); simpl.
      * destruct (_ <=? 0); simpl; repeat split.
        -- exists 0. split; [reflexivity|lia].
        -- exists (Z.max 0 (PlayerStats.hp (playerStats s) - damage)).
           split; [reflexivity|lia].
      * repeat split. exists (Z.max 0 (PlayerStats.hp (playerStats s) - damage)).
        split; [reflexivity|lia].
    + repeat split. exists (Z.max 0 (PlayerStats.hp (playerStats s) - damage)).
      split; [reflexivity|lia].
Qed.

Lemma attack_stats hit category uCoins uGems now s :
  let s' := attack hit category uCoins uGems now s in
  inventory s' = inventory s /\ research s' = research s
  /\ exists v, playerStats s' = set_hp v (playerStats s)
               /\ (v = PlayerStats.hp (playerStats s)
                   \/ 0 <= v <= Z.max 0 (PlayerStats.hp (playerStats s))).
Proof.
  pose proof (attack_upd_stats hit uCoins uGems s) as H.
  unfold attack.
  destruct (currentEnemy s) as [enemy|] eqn:He;
    [|simpl; repeat split; exists (PlayerStats.hp (playerStats s));
      rewrite set_hp_same; auto].
  destruct (inCombat s) eqn:Hc; simpl;
    [|repeat split; exists (PlayerStats.hp (playerStats s)); rewrite set_hp_same; auto].
  destruct category as [[|? ?]|]; simpl; exact H.
Qed.

Lemma upgradeWeapon_upd_frame weaponId s :
  let s' := upgradeWeapon_upd weaponId s in
  playerStats s' = playerStats s /\ research s' = research s
  /\ isPremium s' = isPremium s /\ coins s' = coins s /\ combatLog s' = combatLog s.
Proof.
  unfold upgradeWeapon_upd.
  destruct (findWeapon _ _); [destruct (_ <? _)|]; simpl; repeat split.
Qed.

Lemma upgradeArmor_upd_frame armorId s :
  let s' := upgradeArmor_upd armorId s in
  playerStats s' = playerStats s /\ research s' = research s
  /\ isPremium s' = isPremium s /\ coins s' = coins s /\ combatLog s' = combatLog s.
Proof.
  unfold upgradeArmor_upd.
  destruct (findArmor _ _); [destruct (_ <? _)|]; simpl; repeat split.
Qed.

Lemma sellWeapon_frame weaponId s :
  let s' := sellWeapon weaponId s in
  playerStats s' = playerStats s /\ research s' = research s
  /\ isPremium s' = isPremium s
  /\ Inventory.currentWeapon (inventory s') = Inventory.currentWeapon (inventory s)
  /\ Inventory.currentArmor (inventory s') = Inventory.currentArmor (inventory s)
  /\ Inventory.armor (inventory s') = Inventory.armor (inventory s).
Proof.
  unfold sellWeapon.
  destruct (findWeapon _ _); [destruct (currentWeaponIs _ _)|]; simpl; repeat split.
Qed.

Lemma sellArmor_frame armorId s :
  let s' := sellArmor armorId s in
  playerStats s' = playerStats s /\ research s' = research s
  /\ isPremium s' = isPremium s
  /\ Inventory.currentWeapon (inventory s') = Inventory.currentWeapon (inventory s)
  /\ Inventory.currentArmor (inventory s') = Inventory.currentArmor (inventory s)
  /\ Inventory.weapons (inventory s') = Inventory.weapons (inventory s).
Proof.
  unfold sellArmor.
  destruct (findArmor _ _); [destruct (currentArmorIs _ _)|]; simpl; repeat split.
Qed.

Lemma upgradeResearch_upd_frame s :
  let s' := upgradeResearch_upd s in
  playerStats s' = playerStats s /\ inventory s' = inventory s
  /\ isPremium s' = isPremium s.
Proof.
  unfold upgradeResearch_upd. destruct (_ <? _); simpl; repeat split.
Qed.

(** ** The player's stats along the intents *)

Lemma sameEquipment_refl s : sameEquipment s s.
Proof. repeat split. Qed.

Lemma stats_unchanged s s' :
  sameEquipment s s' -> playerStats s' = playerStats s -> statsStep s s'.
Proof.
  intros He Hp. apply (stats_hp s s' (PlayerStats.hp (playerStats s))); auto.
  now rewrite set_hp_same.
Qed.

Lemma stats_after_update s s0 :
  PlayerStats.baseHp (playerStats s0) = PlayerStats.baseHp (playerStats s) ->
  statsStep s (updatePlayerStats s0).
Proof. intros Hb. apply (stats_recomputed s _ s0); [reflexivity|repeat split|exact Hb]. Qed.

Lemma dispatch_statsStep i s : statsStep s (dispatch i s).
Proof.
  destruct i; simpl.
  - now apply stats_after_update.
  - now apply stats_after_update.
  - apply stats_after_update. now rewrite (proj1 (upgradeWeapon_upd_frame _ _)).
  - apply stats_after_update. now rewrite (proj1 (upgradeArmor_upd_frame _ _)).
  - destruct (sellWeapon_frame weaponId s) as (H1 & H2 & _ & H4 & H5 & _).
    apply stats_unchanged; [repeat split|]; assumption.
  - destruct (sellArmor_frame armorId s) as (H1 & H2 & _ & H4 & H5 & _).
    apply stats_unchanged; [repeat split|]; assumption.
  - unfold upgradeResearch.
    destruct (checkAndUnlockAchievements_frame (updatePlayerStats (upgradeResearch_upd s)))
      as (H1 & H2 & H3 & _).
    apply (stats_recomputed s _ (upgradeResearch_upd s)).
    + exact H1.
    + unfold sameEquipment. simpl in *. rewrite H2, H3. repeat split.
    + now rewrite (proj1 (upgradeResearch_upd_frame _)).
  - destruct (openChest_frame chestCost d s) as (H1 & H2 & _ & H4 & H5 & _).
    apply stats_unchanged; [repeat split|]; assumption.
  - apply (stats_hp s _ (if bool_decide (GameMode.current (gameMode s) = survival)
                         then PlayerStats.hp (playerStats s)
                         else PlayerStats.maxHp (playerStats s)));
      [repeat split|reflexivity|].
    destruct (bool_decide _); auto.
  - destruct (attack_stats hit category uCoins uGems now s) as (H1 & H2 & v & H3 & H4).
    apply (stats_hp s _ v); [|exact H3|tauto].
    unfold sameEquipment. simpl in *. now rewrite H1, H2.
  - apply stats_unchanged; [repeat split|reflexivity].
  - destruct (checkAndUnlockAchievements_frame s) as (H1 & H2 & H3 & _).
    apply stats_unchanged; [|exact H1].
    unfold sameEquipment. simpl in *. now rewrite H2, H3.
  - apply stats_unchanged; [repeat split|reflexivity].
  - apply stats_unchanged; [repeat split|reflexivity].
Qed.

Lemma updatePlayerStats_fix s :
  playerStats (updatePlayerStats s) = playerStats s -> updatePlayerStats s = s.
Proof. destruct s. unfold updatePlayerStats. simpl. now intros ->. Qed.

Lemma updatePlayerStats_congr s1 s2 :
  sameEquipment s1 s2 -> playerStats s2 = playerStats s1 ->
  playerStats (updatePlayerStats s2) = playerStats (updatePlayerStats s1).
Proof.
  intros (Hw & Ha & Hr) Hp. unfold updatePlayerStats. simpl.
  now rewrite Hw, Ha, Hr, Hp.
Qed.

Lemma updatePlayerStats_idem s :
  updatePlayerStats (updatePlayerStats s) = updatePlayerStats s.
Proof.
  apply updatePlayerStats_fix. unfold updatePlayerStats at 1 3. simpl.
  now rewrite Z.min_l by apply Z.le_min_r.
Qed.

Lemma statsCurrent_recomputed s0 s' :
  playerStats s' = playerStats (updatePlayerStats s0) ->
  sameEquipment s0 s' -> statsCurrent s'.
Proof.
  intros Hp He. apply updatePlayerStats_fix.
  rewrite (updatePlayerStats_congr (updatePlayerStats s0) s'); [|exact He|exact Hp].
  now rewrite updatePlayerStats_idem.
Qed.

Lemma statsCurrent_hp s s' v :
  statsCurrent s -> sameEquipment s s' ->
  playerStats s' = set_hp v (playerStats s) ->
  v <= PlayerStats.maxHp (playerStats s) ->
  statsCurrent s'.
Proof.
  intros Hcur (Hw & Ha & Hr) Hp Hv. apply updatePlayerStats_fix.
  apply (f_equal playerStats) in Hcur. revert Hcur.
  unfold updatePlayerStats. simpl. rewrite Hw, Ha, Hr, Hp.
  destruct (playerStats s) as [hp mhp atk def bA bD bH]. simpl.
  intros [= H1 H2 H3 H4]. unfold set_hp. simpl in *.
  rewrite H2, H3, H4. f_equal. lia.
Qed.

Section ResearchBonus.

(** A research bonus is a percentage to add: it is never negative. *)
Hypothesis calculateResearchBonus_nonneg :
  forall level tier, (0 <= calculateResearchBonus level tier)%Q.

Lemma bonusMultiplier_ge_1 r : (1 <= bonusMultiplier r)%Q.
Proof.
  unfold bonusMultiplier.
  pose proof (calculateResearchBonus_nonneg (Research.level r) (Research.tier r)) as Hb.
  assert (H : (0 <= calculateResearchBonus (Research.level r) (Research.tier r) / 100)%Q).
  { apply Qle_shift_div_l; [reflexivity|]. lra. }
  lra.
Qed.

Lemma floorMul_nonneg x m : 0 <= x -> (0 <= m)%Q -> 0 <= floorMul x m.
Proof.
  intros Hx Hm. unfold floorMul. rewrite <- (Qfloor_Z 0). apply Qfloor_resp_le.
  rewrite (Zle_Qle 0 x) in Hx. change (inject_Z 0) with 0%Q in *. nra.
Qed.

Lemma statsSound_step s s' : statsSound s -> statsStep s s' -> statsSound s'.
Proof.
  intros (Hb & Hm & Hh) [s0 Hp _ Hb0|v _ Hp Hv]; unfold statsSound; rewrite Hp.
  - unfold updatePlayerStats. simpl. rewrite Hb0.
    split; [exact Hb|]. split; [|apply Z.le_min_r].
    apply floorMul_nonneg; [exact Hb|].
    pose proof (bonusMultiplier_ge_1 (research s0)). lra.
  - simpl. lia.
Qed.

Lemma statsSound_init now : statsSound (initialGameState now).
Proof. unfold statsSound. simpl. lia. Qed.

Lemma reachable_statsSound s : reachable s -> statsSound s.
Proof.
  induction 1 as [now|s i _ IH]; [apply statsSound_init|].
  eapply statsSound_step; [exact IH|apply dispatch_statsStep].
Qed.

(** C1.  From the initial state, whatever intents have been dispatched
    (equip, upgrade, sell, research, chest, combat start, attack, mode
    change, achievement check, timer tick, save and load), the state
    after one more intent has [hp <= maxHp]; and the recomputation of
    the derived stats sets [maxHp] to [floor (baseHp * bonusMultiplier)]
    and [hp] to the minimum of the old [hp] and that [maxHp]. *)
Theorem hp_never_exceeds_maxHp :
  (forall s i,
      reachable s ->
      let s' := dispatch i s in
      PlayerStats.hp (playerStats s') <= PlayerStats.maxHp (playerStats s'))
  /\ (forall s,
      let s' := updatePlayerStats s in
      PlayerStats.maxHp (playerStats s')
      = floorMul (PlayerStats.baseHp (playerStats s)) (bonusMultiplier (research s))
      /\ PlayerStats.hp (playerStats s')
         = Z.min (PlayerStats.hp (playerStats s)) (PlayerStats.maxHp (playerStats s'))
      /\ PlayerStats.hp (playerStats s') <= PlayerStats.maxHp (playerStats s')).
Proof.
  split.
  - intros s i Hr s'.
    apply (reachable_statsSound s'). subst s'. now apply reachable_step.
  - intros s. simpl. repeat split. apply Z.le_min_r.
Qed.

(** The research bonus before any research is zero. *)
Hypothesis calculateResearchBonus_start : (calculateResearchBonus 0 0 == 0)%Q.

Lemma floorMul_initial x : floorMul x (bonusMultiplier initialResearch) = x.
Proof.
  unfold floorMul, bonusMultiplier.
  change (Research.level initialResearch) with 0.
  change (Research.tier initialResearch) with 0.
  rewrite <- (Qfloor_Z x) at 2. apply Qfloor_comp.
  rewrite calculateResearchBonus_start. field.
Qed.

Lemma statsCurrent_init now : statsCurrent (initialGameState now).
Proof.
  apply updatePlayerStats_fix. unfold updatePlayerStats. simpl.
  rewrite !floorMul_initial. reflexivity.
Qed.

Lemma statsCurrent_step s s' :
  statsSound s -> statsCurrent s -> statsStep s s' -> statsCurrent s'.
Proof.
  intros (Hb & Hm & Hh) Hcur [s0 Hp He _|v He Hp Hv].
  - eapply statsCurrent_recomputed; eassumption.
  - eapply statsCurrent_hp; try eassumption. lia.
Qed.

Lemma reachable_statsCurrent s : reachable s -> statsCurrent s.
Proof.
  induction 1 as [now|s i Hr IH]; [apply statsCurrent_init|].
  eapply statsCurrent_step;
    [apply reachable_statsSound, Hr|exact IH|apply dispatch_statsStep].
Qed.

(** ** Refused intents *)

Lemma upgradeWeapon_upd_refused weaponId s :
  refused (UpgradeWeapon weaponId) s -> upgradeWeapon_upd weaponId s = s.
Proof.
  unfold refused, upgradeWeapon_upd.
  destruct (findWeapon _ _) as [weapon|]; [|reflexivity].
  intros Hlt. destruct (Z.ltb_spec (gems s) (Weapon.upgradeCost weapon)); [reflexivity|lia].
Qed.

Lemma upgradeArmor_upd_refused armorId s :
  refused (UpgradeArmor armorId) s -> upgradeArmor_upd armorId s = s.
Proof.
  unfold refused, upgradeArmor_upd.
  destruct (findArmor _ _) as [armor|]; [|reflexivity].
  intros Hlt. destruct (Z.ltb_spec (gems s) (Armor.upgradeCost armor)); [reflexivity|lia].
Qed.

Lemma sellWeapon_refused weaponId s :
  refused (SellWeapon weaponId) s -> sellWeapon weaponId s = s.
Proof.
  unfold refused, sellWeapon. intros [->| ->]; [reflexivity|].
  now destruct (findWeapon _ _).
Qed.

Lemma sellArmor_refused armorId s :
  refused (SellArmor armorId) s -> sellArmor armorId s = s.
Proof.
  unfold refused, sellArmor. intros [->| ->]; [reflexivity|].
  now destruct (findArmor _ _).
Qed.

Lemma openChest_refused chestCost d s :
  coins s < chestCost -> openChest chestCost d s = (None, s).
Proof.
  intros Hlt. unfold openChest.
  destruct (Z.ltb_spec (coins s) chestCost); [reflexivity|lia].
Qed.

Lemma attack_refused hit category uCoins uGems now s :
  currentEnemy s = None \/ inCombat s = false ->
  attack hit category uCoins uGems now s = s.
Proof.
  unfold attack. intros [->| ->]; [reflexivity|]. now destruct (currentEnemy s).
Qed.

Lemma dispatch_refused s i :
  refused i s -> dispatch i s = if isUpgrade i then updatePlayerStats s else s.
Proof.
  destruct i; simpl; try contradiction; intros Hr.
  - unfold upgradeWeapon. now rewrite upgradeWeapon_upd_refused.
  - unfold upgradeArmor. now rewrite upgradeArmor_upd_refused.
  - now apply sellWeapon_refused.
  - now apply sellArmor_refused.
  - now rewrite openChest_refused.
  - now apply attack_refused.
Qed.

(** C5.  An intent whose precondition is not met (an upgrade of an
    unknown item or with too few gems, a sale of an unknown or of the
    equipped item, a chest that costs more than the coins, an attack
    outside combat) leaves every state of the game exactly as it was,
    so currencies, inventory and combat log too; the chest returns no
    reward.  The updaters return their argument in any state; the
    recomputation of the stats that an upgrade queues afterwards finds
    them up to date in every state of the game.  Each intent is a total
    function of the state: nothing is thrown. *)
Theorem refused_intent_changes_nothing :
  (forall s i, reachable s -> refused i s -> dispatch i s = s)
  /\ (forall s i, refused i s -> isUpgrade i = false -> dispatch i s = s)
  /\ (forall s weaponId,
        refused (UpgradeWeapon weaponId) s -> upgradeWeapon_upd weaponId s = s)
  /\ (forall s armorId,
        refused (UpgradeArmor armorId) s -> upgradeArmor_upd armorId s = s)
  /\ (forall s chestCost d,
        coins s < chestCost -> openChest chestCost d s = (None, s)).
Proof.
  split.
  { intros s i Hr Href. rewrite (dispatch_refused _ _ Href).
    destruct (isUpgrade i); [|reflexivity]. now apply reachable_statsCurrent. }
  split.
  { intros s i Href Hup. rewrite (dispatch_refused _ _ Href). now rewrite Hup. }
  split; [intros; now apply upgradeWeapon_upd_refused|].
  split; [intros; now apply upgradeArmor_upd_refused|].
  intros; now apply openChest_refused.
Qed.

End ResearchBonus.

(** ** The equipped references *)

Lemma equipmentOwned_inventory s s' :
  inventory s' = inventory s -> equipmentOwned s -> equipmentOwned s'.
Proof. unfold equipmentOwned. now intros ->. Qed.

Lemma currentWeaponIs_false weaponId inv w :
  currentWeaponIs weaponId inv = false -> Inventory.currentWeapon inv = Some w ->
  Weapon.id w <> weaponId.
Proof.
  unfold currentWeaponIs. intros H Hc. rewrite Hc in H.
  now apply bool_decide_eq_false in H.
Qed.

Lemma currentArmorIs_false armorId inv a :
  currentArmorIs armorId inv = false -> Inventory.currentArmor inv = Some a ->
  Armor.id a <> armorId.
Proof.
  unfold currentArmorIs. intros H Hc. rewrite Hc in H.
  now apply bool_decide_eq_false in H.
Qed.

Lemma equipmentOwned_upgradeWeapon_upd weaponId s :
  equipmentOwned s -> equipmentOwned (upgradeWeapon_upd weaponId s).
Proof.
  intros [Hw Ha]. unfold upgradeWeapon_upd.
  destruct (findWeapon weaponId _) as [weapon|] eqn:Hfind; [|now split].
  destruct (_ <? _); [now split|].
  apply (findBy_Some Weapon.id) in Hfind as [Hin Hid].
  split; simpl; [|exact Ha].
  destruct (currentWeaponIs weaponId (inventory s)) eqn:Hcur; intros w Hc.
  - apply (findBy_Some Weapon.id) in Hc. tauto.
  - apply (mapAt_miss Weapon.id upgradedWeapon); [now apply Hw|].
    eapply currentWeaponIs_false; eassumption.
Qed.

Lemma equipmentOwned_upgradeArmor_upd armorId s :
  equipmentOwned s -> equipmentOwned (upgradeArmor_upd armorId s).
Proof.
  intros [Hw Ha]. unfold upgradeArmor_upd.
  destruct (findArmor armorId _) as [armor|] eqn:Hfind; [|now split].
  destruct (_ <? _); [now split|].
  apply (findBy_Some Armor.id) in Hfind as [Hin Hid].
  split; simpl; [exact Hw|].
  destruct (currentArmorIs armorId (inventory s)) eqn:Hcur; intros a Hc.
  - apply (findBy_Some Armor.id) in Hc. tauto.
  - apply (mapAt_miss Armor.id upgradedArmor); [now apply Ha|].
    eapply currentArmorIs_false; eassumption.
Qed.

Lemma equipmentOwned_sellWeapon weaponId s :
  equipmentOwned s -> equipmentOwned (sellWeapon weaponId s).
Proof.
  intros [Hw Ha]. unfold sellWeapon.
  destruct (findWeapon weaponId _) as [weapon|]; [|now split].
  destruct (currentWeaponIs weaponId (inventory s)) eqn:Hcur; [now split|].
  split; simpl; [|exact Ha]. intros w Hc.
  apply (dropAt_miss Weapon.id); [now apply Hw|].
  eapply currentWeaponIs_false; eassumption.
Qed.

Lemma equipmentOwned_sellArmor armorId s :
  equipmentOwned s -> equipmentOwned (sellArmor armorId s).
Proof.
  intros [Hw Ha]. unfold sellArmor.
  destruct (findArmor armorId _) as [armor|]; [|now split].
  destruct (currentArmorIs armorId (inventory s)) eqn:Hcur; [now split|].
  split; simpl; [exact Hw|]. intros a Hc.
  apply (dropAt_miss Armor.id); [now apply Ha|].
  eapply currentArmorIs_false; eassumption.
Qed.

Lemma equipmentOwned_dispatch s i :
  equipmentOwned s -> equipsOwned i s -> equipmentOwned (dispatch i s).
Proof.
  intros Ho Hg. destruct i; simpl in *.
  - destruct Ho as [_ Ha]. split; simpl; [now intros w [= <-]|exact Ha].
  - destruct Ho as [Hw _]. split; simpl; [exact Hw|now intros a [= <-]].
  - now apply (equipmentOwned_inventory (upgradeWeapon_upd weaponId s)),
      equipmentOwned_upgradeWeapon_upd.
  - now apply (equipmentOwned_inventory (upgradeArmor_upd armorId s)),
      equipmentOwned_upgradeArmor_upd.
  - now apply equipmentOwned_sellWeapon.
  - now apply equipmentOwned_sellArmor.
  - apply (equipmentOwned_inventory s); [|exact Ho]. unfold upgradeResearch.
    rewrite (proj1 (proj2 (checkAndUnlockAchievements_frame _))). simpl.
    apply upgradeResearch_upd_frame.
  - destruct (openChest_frame chestCost d s) as (_ & _ & _ & H4 & H5 & [ws H6] & [az H7]).
    destruct Ho as [Hw Ha]. simpl in *. split.
    + intros w Hc. rewrite H6. apply elem_of_app. left. apply Hw. congruence.
    + intros a Hc. rewrite H7. apply elem_of_app. left. apply Ha. congruence.
  - exact Ho.
  - apply (equipmentOwned_inventory s); [|exact Ho]. apply attack_stats.
  - exact Ho.
  - apply (equipmentOwned_inventory s); [|exact Ho].
    apply checkAndUnlockAchievements_frame.
  - exact Ho.
  - exact Ho.
Qed.

(** C7, as the code has it.  When every equip names an item of the
    inventory, [currentWeapon] is absent or an entry of
    [inventory.weapons] and [currentArmor] is absent or an entry of
    [inventory.armor] in every state of the game; each intent keeps it so:
    such an equip, upgrade, sale, chest, and all the others. *)
Theorem equipped_items_are_owned :
  (forall s, playable s -> equipmentOwned s)
  /\ (forall s i, equipmentOwned s -> equipsOwned i s -> equipmentOwned (dispatch i s)).
Proof.
  split; [|exact equipmentOwned_dispatch].
  induction 1 as [now|s i _ IH Hg].
  - split; simpl; discriminate.
  - now apply equipmentOwned_dispatch.
Qed.

(** ** The premium flag *)

(** [resetGame] starts a new game: its state is the initial one, which
    [reachable_init] covers. *)
Lemma resetGame_initial now : resetGame now = initialGameState now.
Proof. reflexivity. Qed.

Lemma reachable_run l s : reachable s -> reachable (run l s).
Proof.
  revert s. induction l as [|i l IH]; intros s Hs; [exact Hs|].
  apply IH. now apply reachable_step.
Qed.

(** Loading is the one place that keeps a stored flag: line 139 is
    [parsedState.isPremium || parsedState.zone >= 50]. *)
Lemma loadGameState_keeps_premium now s :
  isPremium s = true -> isPremium (loadGameState now s) = true.
Proof. intros H. simpl. now rewrite H. Qed.

Lemma attack_upd_premium hit uCoins uGems s :
  isPremium (attack_upd hit uCoins uGems s) = isPremium s
  \/ (hit = true
      /\ zone (attack_upd hit uCoins uGems s) = zone s + 1
      /\ isPremium (attack_upd hit uCoins uGems s) = (50 <=? zone s + 1)).
Proof.
  unfold attack_upd. destruct (currentEnemy s) as [enemy|]; [|now left].
  destruct (inCombat s); simpl; [|now left].
  unfold resolveAnswer. destruct hit.
  - destruct (_ <=? 0); simpl; [right|left]; auto.
  - destruct (_ <=? 0); simpl; [|now left].
    unfold loseCombat. destruct (bool_decide _); simpl; [|now left].
    destruct (_ <=? 0); now left.
Qed.

(** Every intent but a won attack leaves [isPremium] as it is. *)
Lemma isPremium_kept_but_by_attack i s :
  isPremium s = true ->
  (forall hit category uCoins uGems now, i <> Attack hit category uCoins uGems now) ->
  isPremium (dispatch i s) = true.
Proof.
  intros Hp Hi. destruct i; simpl.
  - exact Hp.
  - exact Hp.
  - now rewrite (proj1 (proj2 (proj2 (upgradeWeapon_upd_frame _ _)))).
  - now rewrite (proj1 (proj2 (proj2 (upgradeArmor_upd_frame _ _)))).
  - now rewrite (proj1 (proj2 (proj2 (sellWeapon_frame _ _)))).
  - now rewrite (proj1 (proj2 (proj2 (sellArmor_frame _ _)))).
  - unfold upgradeResearch.
    rewrite (proj1 (proj2 (proj2 (proj2 (checkAndUnlockAchievements_frame _))))). simpl.
    now rewrite (proj2 (proj2 (upgradeResearch_upd_frame _))).
  - now rewrite (proj1 (proj2 (proj2 (openChest_frame _ _ _)))).
  - exact Hp.
  - now destruct (Hi hit category uCoins uGems now).
  - exact Hp.
  - now rewrite (proj1 (proj2 (proj2 (proj2 (checkAndUnlockAchievements_frame _))))).
  - exact Hp.
  - now rewrite Hp.
Qed.

End Engine.

(** ** The theorems on sample runs *)

(** The sample research bonus meets the two assumptions on
    [calculateResearchBonus]. *)
Lemma researchBonusExample_nonneg level tier : (0 <= researchBonusExample level tier)%Q.
Proof. unfold researchBonusExample. rewrite <- (Zle_Qle 0). lia. Qed.


(** C1 on a run: in survival mode, facing the ogre, a missed answer. *)
Lemma hp_never_exceeds_maxHp_witness :
  let s := run researchBonusExample checkAchievementsExample inSurvivalCombat
             (initialGameState achievementsExample 0) in
  let s' := dispatch researchBonusExample checkAchievementsExample
              (Attack false None 0 0 0) s in
  reachable researchBonusExample achievementsExample checkAchievementsExample s
  /\ PlayerStats.hp (playerStats s') <= PlayerStats.maxHp (playerStats s').
Proof.
  assert (Hr : reachable researchBonusExample achievementsExample checkAchievementsExample
                 (run researchBonusExample checkAchievementsExample inSurvivalCombat
                    (initialGameState achievementsExample 0))).
  { apply reachable_run, reachable_init. }
  split; [exact Hr|].
  exact (proj1 (hp_never_exceeds_maxHp researchBonusExample achievementsExample
                  checkAchievementsExample researchBonusExample_nonneg) _ _ Hr).
Defined.


(** C3 on a run: the first of three lives is lost to the ogre. *)
Lemma survival_loss_witness :
  let s := run researchBonusExample checkAchievementsExample inSurvivalCombat
             (initialGameState achievementsExample 0) in
  let s' := attack false None 0 0 0 s in
  GameMode.current (gameMode s) = survival
  /\ inCombat s' = false /\ currentEnemy s' = None
  /\ inventory s' = inventory s /\ coins s' = coins s /\ gems s' = gems s
  /\ research s' = research s
  /\ zone s' = zone s
  /\ GameMode.survivalLives (gameMode s') = 2.
Proof.
  pose proof (survival_loss
                (run researchBonusExample checkAchievementsExample inSurvivalCombat
                   (initialGameState achievementsExample 0))
                ogre None 0 0 0 eq_refl eq_refl eq_refl eq_refl)
    as (H1 & H2 & H3 & H4 & H5 & H6 & _ & H8).
  destruct (H8 ltac:(simpl; lia)) as (Hz & _ & _ & Hl).
  repeat split; assumption.
Defined.

(** C10 on a run: after the ogre, the next combat starts and ends at 0 hit
    points. *)
Lemma survival_hp_not_restored_witness :
  let s := run researchBonusExample checkAchievementsExample inSurvivalCombat
             (initialGameState achievementsExample 0) in
  let s1 := attack false None 0 0 0 s in
  let s2 := startCombat slime s1 in
  let s3 := attack false (Some "science") 0 0 7 s2 in
  PlayerStats.hp (playerStats s1) = 0
  /\ PlayerStats.hp (playerStats s2) = 0 /\ inCombat s2 = true
  /\ inCombat s3 = false /\ PlayerStats.hp (playerStats s3) = 0
  /\ GameMode.survivalLives (gameMode s3) = 1.
Proof.
  pose proof (survival_hp_not_restored
                (run researchBonusExample checkAchievementsExample inSurvivalCombat
                   (initialGameState achievementsExample 0))
                ogre None 0 0 0 slime (Some "science") 0 0 7
                eq_refl eq_refl eq_refl eq_refl ltac:(simpl; lia))
    as ((H1 & _) & (H2 & H3 & _) & (H4 & _ & H5 & H6 & _)).
  destruct (H6 ltac:(simpl; lia)) as (_ & Hl).
  repeat split; assumption.
Defined.


(** C5 on a run: with the sword equipped and no gems left after its first
    upgrade, further upgrades, the sale of the equipped sword, the sale of
    an unknown vest, an attack outside combat and a chest of 2500 coins are
    all refused. *)
Lemma refused_intent_changes_nothing_witness :
  let s := run researchBonusExample checkAchievementsExample armed
             (initialGameState achievementsExample 0) in
  reachable researchBonusExample achievementsExample checkAchievementsExample s
  /\ gems s < Weapon.upgradeCost (upgradedWeapon ironSword)
  /\ dispatch researchBonusExample checkAchievementsExample (UpgradeArmor "vest-1")
       (dispatch researchBonusExample checkAchievementsExample (UpgradeWeapon "sword-1") s)
     = dispatch researchBonusExample checkAchievementsExample (UpgradeWeapon "sword-1") s
  /\ dispatch researchBonusExample checkAchievementsExample (SellWeapon "sword-1") s = s
  /\ dispatch researchBonusExample checkAchievementsExample (SellArmor "cape-9") s = s
  /\ dispatch researchBonusExample checkAchievementsExample (Attack true None 0 0 0) s = s
  /\ openChest checkAchievementsExample 2500 daggerChest s = (None, s).
Proof.
  pose proof (refused_intent_changes_nothing researchBonusExample achievementsExample
                checkAchievementsExample researchBonusExample_nonneg
                (eq_refl : (researchBonusExample 0 0 == 0)%Q))
    as (Hreach & Hany & _ & _ & Hchest).
  assert (Hr : reachable researchBonusExample achievementsExample checkAchievementsExample
                 (run researchBonusExample checkAchievementsExample armed
                    (initialGameState achievementsExample 0)))
    by apply reachable_run, reachable_init.
  split; [exact Hr|].
  split; [reflexivity|].
  split.
  { apply Hreach; [now apply reachable_step|]. vm_compute. reflexivity. }
  split; [apply Hany; [right|]; reflexivity|].
  split; [apply Hany; [left|]; reflexivity|].
  split; [apply Hany; [left|]; reflexivity|].
  apply Hchest. reflexivity.
Defined.

(** C6 on a run: the equipped iron sword, upgrade cost 10 and sell price
    25, is upgraded with the 10 gems of the chest. *)
Lemma upgrade_item_effect_witness :
  let s := run researchBonusExample checkAchievementsExample armed
             (initialGameState achievementsExample 0) in
  let s' := upgradeWeapon researchBonusExample "sword-1" s in
  ironSword ∈ Inventory.weapons (inventory s)
  /\ Weapon.upgradeCost ironSword <= gems s
  /\ gems s' = gems s - 10
  /\ upgradedWeapon ironSword ∈ Inventory.weapons (inventory s')
  /\ Weapon.upgradeCost ironSword < Weapon.upgradeCost (upgradedWeapon ironSword)
  /\ Weapon.sellPrice ironSword < Weapon.sellPrice (upgradedWeapon ironSword)
  /\ Inventory.currentWeapon (inventory s') = Some (upgradedWeapon ironSword).
Proof.
  assert (Hin : ironSword ∈ Inventory.weapons
                  (inventory (run researchBonusExample checkAchievementsExample armed
                                (initialGameState achievementsExample 0))))
    by apply list_elem_of_here.
  assert (Hnd : NoDup (map Weapon.id
                  (Inventory.weapons
                     (inventory (run researchBonusExample checkAchievementsExample armed
                                   (initialGameState achievementsExample 0))))))
    by apply NoDup_singleton.
  assert (Hg : Weapon.upgradeCost ironSword
               <= gems (run researchBonusExample checkAchievementsExample armed
                          (initialGameState achievementsExample 0)))
    by (vm_compute; discriminate).
  destruct (proj1 (upgrade_item_effect researchBonusExample) _ _ Hin Hnd Hg)
    as (H1 & H2 & _ & _ & _ & _ & _ & _ & H9 & _ & H11 & H12).
  split; [exact Hin|]. split; [exact Hg|]. split; [exact H1|]. split; [exact H2|].
  split; [apply H9; vm_compute; discriminate|].
  split; [apply H11; vm_compute; discriminate|].
  apply H12. reflexivity.
Defined.

(** C6 as the specification states it does not hold: the first dagger of the chest costs 1
    gem to upgrade and sells for 4 coins; after the upgrade the 10 gems
    pay for, its cost is still [floor (1 * 1.5) = 1] and its price still
    [floor (4 * 1.2) = 4]. *)
Lemma upgrade_keeps_small_cost_and_price :
  let s := dispatch researchBonusExample checkAchievementsExample (OpenChest 50 daggerChest)
             (initialGameState achievementsExample 0) in
  let s' := dispatch researchBonusExample checkAchievementsExample
              (UpgradeWeapon "dagger-0") s in
  rustyDagger 0 ∈ Inventory.weapons (inventory s)
  /\ Weapon.upgradeCost (rustyDagger 0) <= gems s
  /\ findWeapon "dagger-0" (Inventory.weapons (inventory s')) = Some (upgradedWeapon (rustyDagger 0))
  /\ Weapon.level (upgradedWeapon (rustyDagger 0)) = 2
  /\ ~ Weapon.upgradeCost (rustyDagger 0) < Weapon.upgradeCost (upgradedWeapon (rustyDagger 0))
  /\ ~ Weapon.sellPrice (rustyDagger 0) < Weapon.sellPrice (upgradedWeapon (rustyDagger 0)).
Proof.
  split; [apply list_elem_of_here|].
  split; [vm_compute; discriminate|].
  split; [reflexivity|].
  split; [reflexivity|].
  split; vm_compute; intros H; discriminate H.
Qed.

(** C7 on a run: the sword of the chest is equipped, then the vest sold. *)
Lemma equipped_items_are_owned_witness :
  let s := dispatch researchBonusExample checkAchievementsExample (OpenChest 50 armoryChest)
             (initialGameState achievementsExample 0) in
  let s' := dispatch researchBonusExample checkAchievementsExample (EquipWeapon ironSword) s in
  playable researchBonusExample achievementsExample checkAchievementsExample s'
  /\ equipmentOwned s'
  /\ equipmentOwned
       (dispatch researchBonusExample checkAchievementsExample (SellArmor "vest-1") s').
Proof.
  pose proof (equipped_items_are_owned researchBonusExample achievementsExample
                checkAchievementsExample) as [Hplay Hstep].
  assert (Hp : playable researchBonusExample achievementsExample checkAchievementsExample
                 (dispatch researchBonusExample checkAchievementsExample (EquipWeapon ironSword)
                    (dispatch researchBonusExample checkAchievementsExample
                       (OpenChest 50 armoryChest)
                       (initialGameState achievementsExample 0)))).
  { apply playable_step; [apply playable_step; [apply playable_init|exact I]|].
    apply list_elem_of_here. }
  split; [exact Hp|]. split; [exact (Hplay _ Hp)|].
  apply Hstep; [exact (Hplay _ Hp)|exact I].
Defined.

(** C7 as the specification states it does not hold: [equipWeapon] takes any weapon.  In
    the initial state, whose inventory is empty, equipping the iron sword
    leaves [currentWeapon] on a sword that [inventory.weapons] does not
    hold. *)
Lemma equip_of_unowned_item_breaks_reference :
  let s := initialGameState achievementsExample 0 in
  let s' := dispatch researchBonusExample checkAchievementsExample (EquipWeapon ironSword) s in
  reachable researchBonusExample achievementsExample checkAchievementsExample s
  /\ equipmentOwned s
  /\ Inventory.currentWeapon (inventory s') = Some ironSword
  /\ Inventory.weapons (inventory s') = []
  /\ ~ equipmentOwned s'.
Proof.
  split; [apply reachable_init|].
  split; [split; simpl; discriminate|].
  split; [reflexivity|]. split; [reflexivity|].
  intros [Hw _]. specialize (Hw ironSword eq_refl). inversion Hw.
Qed.


(** C9 on a run: the chest of two daggers records the name once; another
    dagger of that name changes nothing. *)
Lemma updateCollectionBook_once_per_name_witness :
  let s := dispatch researchBonusExample checkAchievementsExample (OpenChest 50 daggerChest)
             (initialGameState achievementsExample 0) in
  discovered (ItemWeapon (rustyDagger 7)) s = true
  /\ updateCollectionBook (ItemWeapon (rustyDagger 7)) s = s
  /\ CollectionBook.totalWeaponsFound (collectionBook s) = 1
  /\ sameEntry (ItemArmor leatherVest) (ItemArmor leatherVest)
  /\ updateCollectionBook (ItemArmor leatherVest) (updateCollectionBook (ItemArmor leatherVest) s)
     = updateCollectionBook (ItemArmor leatherVest) s.
Proof.
  intros s. subst s.
  destruct updateCollectionBook_once_per_name as (Hknown & Hsame & _).
  assert (Hd : discovered (ItemWeapon (rustyDagger 7))
                 (dispatch researchBonusExample checkAchievementsExample
                    (OpenChest 50 daggerChest) (initialGameState achievementsExample 0)) = true)
    by (vm_compute; reflexivity).
  split; [exact Hd|]. split; [exact (Hknown _ _ Hd)|]. split; [reflexivity|].
  assert (He : sameEntry (ItemArmor leatherVest) (ItemArmor leatherVest)) by reflexivity.
  split; [exact He|]. exact (Hsame _ _ _ He).
Defined.

(** ** The streak multiplier in binary64

    The rational [streakMultiplier] is exact; the program computes in
    doubles.  On every streak from 0 to 1000 the double is the one nearest
    to the rational at the quoted streaks (1, 1.1, 1.5, 2), never above 2,
    equal to 2 from 50 on, and never below the double of the streak
    before. *)
Lemma streakMultiplier64_checked :
  streakMultiplier64 0 = 1%float
  /\ streakMultiplier64 5 = 0x1.199999999999ap+0%float
  /\ streakMultiplier64 25 = 1.5%float
  /\ streakMultiplier64 50 = 2%float
  /\ forallb (fun c => PrimFloat.leb (streakMultiplier64 c) 2
                      && PrimFloat.leb (streakMultiplier64 c) (streakMultiplier64 (c + 1))
                      && (negb (50 <=? c) || PrimFloat.eqb (streakMultiplier64 c) 2))
       (map Z.of_nat (seq 0 1001)) = true.
Proof. repeat split; vm_compute; reflexivity. Qed.
